(** * FlowSimulation: the canvas particle simulation of multi-flow

    A shallow embedding of [src/assets/js/flow-simulation.js].

    - A JavaScript number is an IEEE 754 binary64 value: it is modelled by
      Rocq's primitive [float], whose operations are the same binary64
      operations, so rounding, infinities and NaN are those of the program.
    - [Math.random], [Math.sin] and [Math.cos] belong to the host; they are
      the fields of the class [MathObject].  The n-th call of [Math.random]
      returns [Math_random n], and the number of calls made so far is
      threaded through the code that draws ([Rand]).
    - An object mutated in place (a particle, the simulation) becomes a
      record passed through the functions that mutate it.  Every particle is
      referenced from the pool only, so no aliasing is lost.
    - [requestAnimationFrame] and [cancelAnimationFrame] act on the list of
      callbacks the browser holds for the next frame ([Host]); [frame] is
      the browser running them.
    - The object literal [{}] that [getPhaseDistribution] fills is a finite
      map from its own keys to their values, read through [Object.prototype]
      for the keys it does not hold ([getProperty], [setProperty]).
    - Drawing ([render], [drawFlowField]) and the markup of the control
      panel write to the page only and are left out. *)

From Stdlib Require Import ZArith Floats Bool.
From stdpp Require Import base option list strings gmap fin_maps.

Set Warnings "-inexact-float".

(** ** JavaScript numbers *)

Module Num.

Local Open Scope float_scope.

(** [ToNumber(undefined)] is NaN; a defined number is itself. *)
Definition toNumber (v : option float) : float :=
  match v with
  | Some f => f
  | None => nan
  end.

(** [ToBoolean] on a number: [0], [-0] and NaN are falsy. *)
Definition truthy (f : float) : bool :=
  negb (f =? 0) && negb (is_nan f).

(** The number of a non-negative machine integer, as [array.length] gives it. *)
Definition of_nat (n : nat) : float :=
  of_uint63 (Uint63.of_Z (Z.of_nat n)).

(** [Math.floor] of a number that has an integer part; NaN and the
    infinities have none.  [Z.shiftl] by a negative amount shifts right,
    rounding towards minus infinity. *)
Definition floor (f : float) : option Z :=
  match Prim2SF f with
  | S754_zero _ => Some 0%Z
  | S754_finite s m e => Some (Z.shiftl (if s then Zneg m else Zpos m) e)
  | S754_infinity _ | S754_nan => None
  end.

(** [x >= lo && x <= hi], the closed interval test. *)
Definition between (lo hi x : float) : bool :=
  (lo <=? x) && (x <=? hi).

(** [x >= lo && x < hi], the half-open interval test. *)
Definition within (lo hi x : float) : bool :=
  (lo <=? x) && (x <? hi).

End Num.

(** ** Particles *)

(** The colour string [rgba(r, g, b, a)] built by a template literal. *)
Inductive Color : Type :=
  | rgba (r g b : Z) (alpha : float).

Module Particle.

(** A particle object.  [color] and [buoyancy] are absent ([undefined])
    until [setPhaseProperties] assigns them.  [phase] is a string; the
    value [undefined], which [createParticles] reads from an empty
    [phaseTypes], is only ever compared with the three labels and used as a
    property key, where it behaves as the string ["undefined"]. *)
Record t : Type := mk {
  id : Z;
  x : float;
  y : float;
  vx : float;
  vy : float;
  size : float;
  phase : string;
  density : float;
  temperature : float;
  life : float;
  maxLife : float;
  color : option Color;
  buoyancy : option float
}.

Definition set_x (v : float) (p : t) : t :=
  mk (id p) v (y p) (vx p) (vy p) (size p) (phase p) (density p)
     (temperature p) (life p) (maxLife p) (color p) (buoyancy p).

Definition set_y (v : float) (p : t) : t :=
  mk (id p) (x p) v (vx p) (vy p) (size p) (phase p) (density p)
     (temperature p) (life p) (maxLife p) (color p) (buoyancy p).

Definition set_vx (v : float) (p : t) : t :=
  mk (id p) (x p) (y p) v (vy p) (size p) (phase p) (density p)
     (temperature p) (life p) (maxLife p) (color p) (buoyancy p).

Definition set_vy (v : float) (p : t) : t :=
  mk (id p) (x p) (y p) (vx p) v (size p) (phase p) (density p)
     (temperature p) (life p) (maxLife p) (color p) (buoyancy p).

Definition set_size (v : float) (p : t) : t :=
  mk (id p) (x p) (y p) (vx p) (vy p) v (phase p) (density p)
     (temperature p) (life p) (maxLife p) (color p) (buoyancy p).

Definition set_phase (v : string) (p : t) : t :=
  mk (id p) (x p) (y p) (vx p) (vy p) (size p) v (density p)
     (temperature p) (life p) (maxLife p) (color p) (buoyancy p).

Definition set_temperature (v : float) (p : t) : t :=
  mk (id p) (x p) (y p) (vx p) (vy p) (size p) (phase p) (density p)
     v (life p) (maxLife p) (color p) (buoyancy p).

Definition set_life (v : float) (p : t) : t :=
  mk (id p) (x p) (y p) (vx p) (vy p) (size p) (phase p) (density p)
     (temperature p) v (maxLife p) (color p) (buoyancy p).

Definition set_color (v : Color) (p : t) : t :=
  mk (id p) (x p) (y p) (vx p) (vy p) (size p) (phase p) (density p)
     (temperature p) (life p) (maxLife p) (Some v) (buoyancy p).

Definition set_buoyancy (v : float) (p : t) : t :=
  mk (id p) (x p) (y p) (vx p) (vy p) (size p) (phase p) (density p)
     (temperature p) (life p) (maxLife p) (color p) (Some v).

End Particle.

(** The drawing surface, as far as the simulation reads it: its size, which
    [setupCanvas] and the resize listener copy from the container. *)
Record Canvas : Type := mkCanvas {
  width : float;
  height : float
}.

(** The host element the simulation is attached to, as far as the
    simulation reads it. *)
Record Container : Type := mkContainer {
  offsetWidth : float;
  offsetHeight : float
}.

(** A JavaScript reference: [null], [undefined] or an object. *)
Inductive Ref (A : Type) : Type :=
  | Null
  | Undefined
  | Obj (a : A).

Arguments Null {A}.
Arguments Undefined {A}.
Arguments Obj {A} a.

(** An exception: the TypeError the engine raises when [property] is read
    from [null] or [undefined], or an error the program throws itself with
    [throw new Error(message)].  [flow-simulation.js] has no [throw]. *)
Inductive Exn : Type :=
  | TypeError_reading (property : string)
  | Error (message : string).

(** Whether an exception is one the program threw itself. *)
Definition thrownByProgram (e : Exn) : bool :=
  match e with
  | Error _ => true
  | TypeError_reading _ => false
  end.

(** What a call completes with: a value, or a thrown exception. *)

Inductive Completion (A : Type) : Type :=
  | Normal (a : A)
  | Throw (e : Exn).

Arguments Normal {A} a.
Arguments Throw {A} e.

(** ** Configuration *)

Module Config.

(** The [options] argument of the constructor: each key is absent or holds
    a value of its documented type. *)
Record t : Type := mk {
  particleCount : option Z;
  flowSpeed : option float;
  turbulence : option float;
  phaseTypes : option (list string);
  temperature : option float;
  pressure : option float
}.

(** [{}], the default of the parameter. *)
Definition empty : t := mk None None None None None None.

End Config.

Module Options.

(** [this.options]. *)
Record t : Type := mk {
  particleCount : Z;
  flowSpeed : float;
  turbulence : float;
  phaseTypes : list string;
  temperature : float;
  pressure : float
}.

Definition set_flowSpeed (v : float) (o : t) : t :=
  mk (particleCount o) v (turbulence o) (phaseTypes o) (temperature o)
     (pressure o).

Definition set_turbulence (v : float) (o : t) : t :=
  mk (particleCount o) (flowSpeed o) v (phaseTypes o) (temperature o)
     (pressure o).

Definition set_temperature (v : float) (o : t) : t :=
  mk (particleCount o) (flowSpeed o) (turbulence o) (phaseTypes o) v
     (pressure o).

End Options.

Local Open Scope float_scope.

(** [options.key || fallback]: the fallback replaces an absent key and a
    falsy value. *)
Definition or_default {A : Type} (truthy : A -> bool) (v : option A)
    (fallback : A) : A :=
  match v with
  | Some a => if truthy a then a else fallback
  | None => fallback
  end.

(** [{ key: earlier, ...options }]: a key that [options] holds overwrites
    the value written before the spread. *)
Definition spread {A : Type} (v : option A) (earlier : A) : A :=
  match v with
  | Some a => a
  | None => earlier
  end.

(** The object literal assigned to [this.options] in the constructor. *)
Definition mergeOptions (options : Config.t) : Options.t :=
  Options.mk
    (spread (Config.particleCount options)
       (or_default (fun n => negb (n =? 0)%Z) (Config.particleCount options)
          100%Z))
    (spread (Config.flowSpeed options)
       (or_default Num.truthy (Config.flowSpeed options) 1))
    (spread (Config.turbulence options)
       (or_default Num.truthy (Config.turbulence options) 0.1))
    (spread (Config.phaseTypes options)
       (or_default (fun _ => true) (Config.phaseTypes options)
          ["gas"; "liquid"]%string))
    (spread (Config.temperature options)
       (or_default Num.truthy (Config.temperature options) 293.15))
    (spread (Config.pressure options)
       (or_default Num.truthy (Config.pressure options) 101325)).

(** ** Per-particle steps that draw no random number *)

(** [setPhaseProperties(particle)]: a [switch] with no default case. *)
Definition setPhaseProperties (p : Particle.t) : Particle.t :=
  if String.eqb (Particle.phase p) "gas" then
    Particle.set_buoyancy (- 0.02)
      (Particle.set_size (Particle.size p * 0.8)
         (Particle.set_color (rgba 0 170 255 (Particle.density p * 0.3)) p))
  else if String.eqb (Particle.phase p) "liquid" then
    Particle.set_buoyancy 0.01
      (Particle.set_size (Particle.size p * 1.2)
         (Particle.set_color (rgba 0 100 200 (Particle.density p * 0.7)) p))
  else if String.eqb (Particle.phase p) "vapor" then
    Particle.set_buoyancy (- 0.05)
      (Particle.set_size (Particle.size p * 0.6)
         (Particle.set_color (rgba 200 200 255 (Particle.density p * 0.2)) p))
  else p.

Definition criticalTemp : float := 373.15.

(** [applyBoundaries(particle)]: a coordinate that left the surface is put
    on the opposite edge. *)
Definition applyBoundaries (canvas : Canvas) (p : Particle.t) : Particle.t :=
  let p1 :=
    if Particle.x p <? 0 then Particle.set_x (width canvas) p
    else if width canvas <? Particle.x p then Particle.set_x 0 p
    else p in
  if Particle.y p1 <? 0 then Particle.set_y (height canvas) p1
  else if height canvas <? Particle.y p1 then Particle.set_y 0 p1
  else p1.


(** ** The simulation object and its host *)

Record FlowSimulation : Type := mkSim {
  container : Container;
  options : Options.t;
  particles : list Particle.t;
  isRunning : bool;
  animationId : option nat;
  time : float;
  canvas : Canvas
}.

Definition set_options (v : Options.t) (s : FlowSimulation) : FlowSimulation :=
  mkSim (container s) v (particles s) (isRunning s) (animationId s) (time s)
        (canvas s).

Definition set_particles (v : list Particle.t) (s : FlowSimulation) :
    FlowSimulation :=
  mkSim (container s) (options s) v (isRunning s) (animationId s) (time s)
        (canvas s).

Definition set_isRunning (v : bool) (s : FlowSimulation) : FlowSimulation :=
  mkSim (container s) (options s) (particles s) v (animationId s) (time s)
        (canvas s).

Definition set_animationId (v : nat) (s : FlowSimulation) : FlowSimulation :=
  mkSim (container s) (options s) (particles s) (isRunning s) (Some v) (time s)
        (canvas s).

Definition set_time (v : float) (s : FlowSimulation) : FlowSimulation :=
  mkSim (container s) (options s) (particles s) (isRunning s) (animationId s) v
        (canvas s).

Definition set_canvas (v : Canvas) (s : FlowSimulation) : FlowSimulation :=
  mkSim (container s) (options s) (particles s) (isRunning s) (animationId s)
        (time s) v.

(** The part of the browser the simulation talks to: how many numbers
    [Math.random] has handed out, the animation-frame callbacks that are
    requested and not yet run or cancelled (every one of them is
    [() => this.animate()]), and the handle the next request returns. *)
Record Host : Type := mkHost {
  draws : nat;
  callbacks : list nat;
  nextHandle : nat
}.

Record World : Type := mkWorld {
  this : FlowSimulation;
  host : Host
}.

(** [requestAnimationFrame(callback)]. *)
Definition requestAnimationFrame (h : Host) : nat * Host :=
  (nextHandle h,
   mkHost (draws h) (callbacks h ++ [nextHandle h]) (S (nextHandle h))).

(** [cancelAnimationFrame(handle)]. *)
Definition cancelAnimationFrame (handle : nat) (h : Host) : Host :=
  mkHost (draws h) (filter (fun c => c <> handle) (callbacks h)) (nextHandle h).

(** Code that calls [Math.random]: it is given the number of calls made so
    far and returns the number made after it. *)
Definition Rand (A : Type) : Type := nat -> A * nat.

Definition ret {A : Type} (a : A) : Rand A := fun n => (a, n).

Definition bind {A B : Type} (m : Rand A) (k : A -> Rand B) : Rand B :=
  fun n => let (a, n') := m n in k a n'.

Notation "'let*' x ':=' m 'in' k" := (bind m (fun x => k))
  (at level 10, x name, m at level 100, k at level 200, only parsing).

(** [array.forEach] with a body that mutates the element it is given. *)
Fixpoint forEach {A : Type} (body : A -> Rand A) (l : list A) : Rand (list A) :=
  match l with
  | [] => ret []
  | a :: l' => let* a' := body a in let* l'' := forEach body l' in ret (a' :: l'')
  end.

(** [array[index]] for the index [Math.floor] computed; outside the array
    the read gives [undefined]. *)
Definition phaseAt (phaseTypes : list string) (index : option Z) : string :=
  match index with
  | Some (Zneg _) | None => "undefined"
  | Some z => default "undefined"%string (phaseTypes !! Z.to_nat z)
  end.

(** The part of the host's [Math] object the simulation calls.
    [Math_random n] is what the n-th call of [Math.random()] returns. *)
Class MathObject : Type := {
  Math_random : nat -> float;
  Math_sin : float -> float;
  Math_cos : float -> float
}.

Section Simulation.

Context {Math : MathObject}.

Definition random : Rand float := fun n => (Math_random n, S n).

(** The body of the loop of [createParticles], for the index [i]. *)
Definition createParticle (s : FlowSimulation) (i : Z) : Rand Particle.t :=
  let* rx := random in
  let* ry := random in
  let* rvx := random in
  let* rvy := random in
  let* rsize := random in
  let* rphase := random in
  let* rdensity := random in
  let* rtemp := random in
  let* rlife := random in
  ret (setPhaseProperties
         (Particle.mk i
            (rx * width (canvas s))
            (ry * height (canvas s))
            ((rvx - 0.5) * Options.flowSpeed (options s))
            ((rvy - 0.5) * Options.flowSpeed (options s))
            (rsize * 5 + 2)
            (phaseAt (Options.phaseTypes (options s))
               (Num.floor
                  (rphase * Num.of_nat (length (Options.phaseTypes (options s))))))
            (rdensity * 0.5 + 0.5)
            (Options.temperature (options s) + (rtemp - 0.5) * 20)
            1.0
            (rlife * 100 + 50)
            None None)).

(** The loop of [createParticles] over the indices still to do. *)
Fixpoint createLoop (s : FlowSimulation) (indices : list Z) :
    Rand (list Particle.t) :=
  match indices with
  | [] => ret []
  | i :: rest =>
      let* p := createParticle s i in
      let* ps := createLoop s rest in
      ret (p :: ps)
  end.

(** [createParticles()]: the pool is replaced by [particleCount] new
    particles, [i] running over [0, 1, ...] while [i < particleCount]. *)
Definition createParticles (s : FlowSimulation) : Rand FlowSimulation :=
  let* ps := createLoop s (seqZ 0 (Options.particleCount (options s))) in
  ret (set_particles ps s).

(** [applyFlowForces(particle)]. *)
Definition applyFlowForces (s : FlowSimulation) (p : Particle.t) :
    Rand Particle.t :=
  let* r1 := random in
  let turbulenceX := (r1 - 0.5) * Options.turbulence (options s) in
  let* r2 := random in
  let turbulenceY := (r2 - 0.5) * Options.turbulence (options s) in
  let p1 :=
    Particle.set_vy (Particle.vy p + Num.toNumber (Particle.buoyancy p)) p in
  let flowX := Math_sin (time s * 0.01 + Particle.y p1 * 0.01) * 0.1 in
  let flowY := Math_cos (time s * 0.01 + Particle.x p1 * 0.01) * 0.1 in
  let p2 := Particle.set_vx (Particle.vx p1 + (turbulenceX + flowX)) p1 in
  let p3 := Particle.set_vy (Particle.vy p2 + (turbulenceY + flowY)) p2 in
  let p4 := Particle.set_vx (Particle.vx p3 * 0.98) p3 in
  ret (Particle.set_vy (Particle.vy p4 * 0.98) p4).

(** [checkPhaseChange(particle)]. *)
Definition checkPhaseChange (p : Particle.t) : Rand Particle.t :=
  let p1 :=
    if String.eqb (Particle.phase p) "liquid"
       && (criticalTemp <? Particle.temperature p) then
      setPhaseProperties (Particle.set_phase "vapor" p)
    else if String.eqb (Particle.phase p) "vapor"
            && (Particle.temperature p <? criticalTemp) then
      setPhaseProperties (Particle.set_phase "liquid" p)
    else p in
  let* r := random in
  ret (Particle.set_temperature (Particle.temperature p1 + (r - 0.5) * 0.5) p1).

(** [resetParticle(particle)]. *)
Definition resetParticle (s : FlowSimulation) (p : Particle.t) :
    Rand Particle.t :=
  let* rx := random in
  let p1 := Particle.set_x (rx * width (canvas s)) p in
  let* ry := random in
  let p2 := Particle.set_y (ry * height (canvas s)) p1 in
  let p3 := Particle.set_life 1.0 p2 in
  let* rt := random in
  ret (Particle.set_temperature
         (Options.temperature (options s) + (rt - 0.5) * 20) p3).

(** The callback [updateParticles] passes to [forEach]. *)
Definition updateParticle (s : FlowSimulation) (p : Particle.t) :
    Rand Particle.t :=
  let* p1 := applyFlowForces s p in
  let* p2 := checkPhaseChange p1 in
  let p3 := Particle.set_x (Particle.x p2 + Particle.vx p2) p2 in
  let p4 := Particle.set_y (Particle.y p3 + Particle.vy p3) p3 in
  let p5 := applyBoundaries (canvas s) p4 in
  let p6 := Particle.set_life (Particle.life p5 - 1 / Particle.maxLife p5) p5 in
  if Particle.life p6 <=? 0 then resetParticle s p6 else ret p6.

(** [updateParticles()]. *)
Definition updateParticles (s : FlowSimulation) : Rand FlowSimulation :=
  let* ps := forEach (updateParticle s) (particles s) in
  ret (set_particles ps s).

(** [animate()].  [render()] only draws: it reads the particles and writes
    the bitmap of the canvas, which nothing here reads back. *)
Definition animate (w : World) : World :=
  if negb (isRunning (this w)) then w
  else
    let s1 := set_time (time (this w) + 1) (this w) in
    let (s2, n) := updateParticles s1 (draws (host w)) in
    let (handle, h) :=
      requestAnimationFrame
        (mkHost n (callbacks (host w)) (nextHandle (host w))) in
    mkWorld (set_animationId handle s2) h.

(** [start()]. *)
Definition start (w : World) : World :=
  if negb (isRunning (this w)) then
    animate (mkWorld (set_isRunning true (this w)) (host w))
  else w.

(** [stop()].  A handle is a number; [0] and [null] are falsy. *)
Definition stop (w : World) : World :=
  let s := set_isRunning false (this w) in
  match animationId s with
  | Some handle =>
      if negb (handle =? 0)%nat
      then mkWorld s (cancelAnimationFrame handle (host w))
      else mkWorld s (host w)
  | None => mkWorld s (host w)
  end.

(** The click handler of the Reset button: stop, recreate the pool, start. *)
Definition resetSim (w : World) : World :=
  let w1 := stop w in
  let (s, n) := createParticles (this w1) (draws (host w1)) in
  start (mkWorld s (mkHost n (callbacks (host w1)) (nextHandle (host w1)))).

(** The browser runs one animation frame: the callbacks requested before
    the frame are run in order; what they request waits for the next one. *)
Definition frame (w : World) : World :=
  fold_left (fun w' _ => animate w') (callbacks (host w))
    (mkWorld (this w) (mkHost (draws (host w)) [] (nextHandle (host w)))).

(** The listener of the window's [resize] event; the container has then the
    size [c] reports. *)
Definition onResize (c : Container) (w : World) : World :=
  mkWorld
    (set_canvas (mkCanvas (offsetWidth c) (offsetHeight c))
       (mkSim c (options (this w)) (particles (this w)) (isRunning (this w))
          (animationId (this w)) (time (this w)) (canvas (this w))))
    (host w).

(** [setupCanvas()]: the canvas takes the size of the container; reading
    [offsetWidth] of an absent container throws. *)
Definition setupCanvas (c : Ref Container) : Completion (Container * Canvas) :=
  match c with
  | Obj el => Normal (el, mkCanvas (offsetWidth el) (offsetHeight el))
  | Null | Undefined => Throw (TypeError_reading "offsetWidth")
  end.

(** [new FlowSimulation(container, options)]: the constructor and [init()].
    [setupControls()] builds the control panel, whose listeners are the
    mutators and [start], [stop] and [resetSim]. *)
Definition construct (c : Ref Container) (cfg : Config.t) (h : Host) :
    Completion World :=
  let opts := mergeOptions cfg in
  match setupCanvas c with
  | Normal (el, cv) =>
      let (s, n) := createParticles (mkSim el opts [] false None 0 cv) (draws h) in
      Normal (mkWorld s (mkHost n (callbacks h) (nextHandle h)))
  | Throw e => Throw e
  end.

End Simulation.

(** ** Mutators and queries *)

Definition setFlowSpeed (speed : float) (s : FlowSimulation) : FlowSimulation :=
  set_options (Options.set_flowSpeed speed (options s)) s.

Definition setTurbulence (turbulence : float) (s : FlowSimulation) :
    FlowSimulation :=
  set_options (Options.set_turbulence turbulence (options s)) s.

Definition setTemperature (temperature : float) (s : FlowSimulation) :
    FlowSimulation :=
  set_options (Options.set_temperature temperature (options s)) s.

Definition getParticleCount (s : FlowSimulation) : nat :=
  length (particles s).

(** ** The object [distribution] of [getPhaseDistribution] *)

(** The names of the members the object literal [{}] inherits from
    [Object.prototype] in a browser, as the language defines that object
    (its Annex B included): eleven functions and the accessor [__proto__].
    All of them are writable or, for [__proto__], have a setter, so an
    assignment through [distribution] never throws. *)
Definition objectPrototypeMembers : list string :=
  ["constructor"; "__defineGetter__"; "__defineSetter__"; "hasOwnProperty";
   "__lookupGetter__"; "__lookupSetter__"; "isPrototypeOf";
   "propertyIsEnumerable"; "toString"; "valueOf"; "__proto__";
   "toLocaleString"]%string.

(** The values [getPhaseDistribution] meets: [undefined]; a count (a whole
    number below the largest array length, which binary64 holds exactly);
    the member of [Object.prototype] called [member] (a function, or for
    [__proto__] the prototype object); and the string that is the text of
    that member followed by [ones] characters ["1"]. *)
Inductive Value : Type :=
  | undefinedValue
  | numberValue (n : nat)
  | inheritedValue (member : string)
  | textValue (member : string) (ones : nat).

(** [distribution[k]]: the own property, else the inherited member, else
    [undefined]. *)
Definition getProperty (distribution : gmap string Value) (k : string) :
    Value :=
  match distribution !! k with
  | Some v => v
  | None =>
      if decide (k ∈ objectPrototypeMembers) then inheritedValue k
      else undefinedValue
  end.

(** [(v || 0) + 1]: [undefined] and [0] are falsy; a function, an object and
    a non-empty string are truthy, and [+ 1] turns the first two into their
    text and appends ["1"]. *)
Definition orZeroPlusOne (v : Value) : Value :=
  match v with
  | undefinedValue => numberValue 1
  | numberValue n => numberValue ((if (n =? 0)%nat then 0 else n) + 1)
  | inheritedValue member => textValue member 1
  | textValue member ones => textValue member (S ones)
  end.

(** [distribution[k] = v] for a number or a string [v]: an own property is
    written, except that [__proto__] is an accessor whose setter ignores
    what is neither an object nor [null]. *)
Definition setProperty (distribution : gmap string Value) (k : string)
    (v : Value) : gmap string Value :=
  if String.eqb k "__proto__" then distribution else <[k := v]> distribution.

(** [getPhaseDistribution()]. *)
Definition getPhaseDistribution (s : FlowSimulation) : gmap string Value :=
  fold_left
    (fun distribution p =>
       setProperty distribution (Particle.phase p)
         (orZeroPlusOne (getProperty distribution (Particle.phase p))))
    (particles s) ∅.

(** Adding the entry [v] to a sum of counts: there is a sum as long as
    every entry is a number. *)
Definition addCount (v : Value) (total : option nat) : option nat :=
  match v, total with
  | numberValue n, Some t => Some (n + t)%nat
  | _, _ => None
  end.

(** The sum of the counts of a distribution over all its labels, when every
    entry is a number. *)
Definition totalCount (distribution : gmap string Value) : option nat :=
  map_fold (fun _ => addCount) (Some 0%nat) distribution.

(** ** Vocabulary of the statements *)

(** What [getPhaseDistribution()] holds for the label [k] when [count]
    particles are in that phase. *)
Definition entryFor (k : string) (count : nat) : option Value :=
  match count with
  | O => None
  | S _ =>
      if String.eqb k "__proto__" then None
      else if decide (k ∈ objectPrototypeMembers)
      then Some (textValue k count)
      else Some (numberValue count)
  end.


(** [quietTicks p q]: the particle [p] becomes [q] over some ticks, on each
    of which it starts not below the critical temperature. *)
Inductive quietTicks {Math : MathObject} : Particle.t -> Particle.t -> Prop :=
  | quiet_done (p : Particle.t) : quietTicks p p
  | quiet_tick (s : FlowSimulation) (n : nat) (p p' q : Particle.t) :
      (Particle.temperature p <? criticalTemp) = false ->
      p' = (updateParticle s p n).1 ->
      quietTicks p' q ->
      quietTicks p q.

(** Two particles that differ at most in their velocity. *)
Definition sameButVelocity (p q : Particle.t) : Prop :=
  Particle.set_vx 0 (Particle.set_vy 0 p) = Particle.set_vx 0 (Particle.set_vy 0 q).

(** A caller applies a mutator to the simulation. *)
Definition onThis (f : FlowSimulation -> FlowSimulation) (w : World) : World :=
  mkWorld (f (this w)) (host w).

(** The states a simulation can be in: it is constructed on a container,
    in a browser with no callback of the simulation pending and whose
    handles are non-zero, and then driven by its callers and by the
    browser's frames. *)
Inductive reachable {Math : MathObject} : World -> Prop :=
  | reach_construct (c : Ref Container) (cfg : Config.t) (h : Host) (w : World) :
      callbacks h = [] -> nextHandle h <> 0%nat ->
      construct c cfg h = Normal w -> reachable w
  | reach_start (w : World) : reachable w -> reachable (start w)
  | reach_stop (w : World) : reachable w -> reachable (stop w)
  | reach_resetSim (w : World) : reachable w -> reachable (resetSim w)
  | reach_frame (w : World) : reachable w -> reachable (frame w)
  | reach_onResize (c : Container) (w : World) :
      reachable w -> reachable (onResize c w)
  | reach_setFlowSpeed (v : float) (w : World) :
      reachable w -> reachable (onThis (setFlowSpeed v) w)
  | reach_setTurbulence (v : float) (w : World) :
      reachable w -> reachable (onThis (setTurbulence v) w)
  | reach_setTemperature (v : float) (w : World) :
      reachable w -> reachable (onThis (setTemperature v) w).

(** The schedule is sound: a running simulation has exactly one callback
    pending, the one [animationId] names; a stopped one has none. *)
Definition scheduled (w : World) : Prop :=
  nextHandle (host w) <> 0%nat /\
  if isRunning (this w)
  then exists handle, handle <> 0%nat
                      /\ animationId (this w) = Some handle
                      /\ callbacks (host w) = [handle]
  else callbacks (host w) = [].

(** The particles of a pool that are in the phase [label]. *)
Definition withPhase (label : string) (ps : list Particle.t) :
    list Particle.t :=
  filter (fun p => Particle.phase p = label) ps.

(** [styled p]: the colour and the buoyancy of [p] are the ones
    [setPhaseProperties] assigns for its phase and density, so applying it
    again would change the size only. *)
Definition styled (p : Particle.t) : Prop :=
  Particle.color (setPhaseProperties p) = Particle.color p /\
  Particle.buoyancy (setPhaseProperties p) = Particle.buoyancy p.

(** What [createParticles] fixes for the lifetime of a particle. *)
Definition birthmark (p : Particle.t) : Z * float * float :=
  (Particle.id p, Particle.density p, Particle.maxLife p).

(** The callback of [updateParticles] from the position update on: what it
    does with the particle [checkPhaseChange] leaves. *)
Definition afterPhaseChange {Math : MathObject} (s : FlowSimulation)
    (p2 : Particle.t) : Rand Particle.t :=
  let p3 := Particle.set_x (Particle.x p2 + Particle.vx p2) p2 in
  let p4 := Particle.set_y (Particle.y p3 + Particle.vy p3) p3 in
  let p5 := applyBoundaries (canvas s) p4 in
  let p6 := Particle.set_life (Particle.life p5 - 1 / Particle.maxLife p5) p5 in
  if Particle.life p6 <=? 0 then resetParticle s p6 else ret p6.

(** ** Concrete inputs *)

(** A host whose [Math.random] always returns [0.5] and whose sine and
    cosine are constant, for running the model on concrete inputs. *)
Definition stillMath : MathObject :=
  {| Math_random := fun _ => 0.5; Math_sin := fun _ => 0; Math_cos := fun _ => 1 |}.

(** A browser that has handed out no random number and no handle yet. *)
Definition freshHost : Host := mkHost 0 [] 1.

(** A particle one unit left of the surface. *)
Definition strayParticle : Particle.t :=
  Particle.mk 0 (- 1) 5 0 0 4 "gas" 0.75 293.15 1 100
    (Some (rgba 0 170 255 0.225)) (Some (- 0.02)).

(** Three particles for running the model: a liquid one above the critical
    temperature whose life lasts one more tick, a vapor one below it, and
    the gas particle [strayParticle]. *)
Definition hotLiquid : Particle.t :=
  Particle.mk 0 10 10 0 0 6 "liquid" 0.75 400 0.03 50
    (Some (rgba 0 100 200 0.525)) (Some 0.01).

Definition coldVapor : Particle.t :=
  Particle.mk 1 20 20 0 0 3 "vapor" 0.75 300 1 50
    (Some (rgba 200 200 255 0.15)) (Some (- 0.05)).

Definition demoSim : FlowSimulation :=
  mkSim (mkContainer 100 100) (mergeOptions Config.empty)
    [hotLiquid; coldVapor; strayParticle] true (Some 1%nat) 0
    (mkCanvas 100 100).

Definition demoWorld : World :=
  mkWorld demoSim (mkHost 0 [1%nat] 2).





(** The configuration [{ turbulence: 0 }]. *)
Definition zeroTurbulence : Config.t :=
  Config.mk None None (Some 0) None None None.

(** The simulation constructed with the default configuration on a
    100 x 100 container, under [stillMath]. *)
Definition constructedWorld : World :=
  match @construct stillMath (Obj (mkContainer 100 100)) Config.empty freshHost
  with
  | Normal w => w
  | Throw _ => demoWorld
  end.


(** A particle whose phase is none of the three the code styles, as
    [createParticles] makes it: without colour and buoyancy. *)
Definition plasmaParticle : Particle.t :=
  Particle.mk 3 30 30 0 0 4 "plasma" 0.75 293.15 1 100 None None.

(** A stopped simulation with an empty pool that shares with [demoSim] the
    tick counter, the canvas size, the turbulence and the temperature, and
    nothing else. *)
Definition otherSim : FlowSimulation :=
  mkSim (mkContainer 640 480)
    (Options.mk 7 3 0.1 ["plasma"]%string 293.15 5)
    [] false None 0 (mkCanvas 100 100).

(** * Properties *)

(** ** Order of binary64 numbers *)

Section FloatOrder.

Lemma SFcompare_antisym (a b : spec_float) :
  SFcompare b a = option_map CompOpp (SFcompare a b).
Proof.
  destruct a as [sa|sa| |sa ma ea], b as [sb|sb| |sb mb eb]; simpl;
    try reflexivity;
    try (destruct sa; reflexivity);
    try (destruct sb; reflexivity);
    try (destruct sa, sb; reflexivity).
  assert (Hm : Pos.compare_cont Eq mb ma = CompOpp (Pos.compare_cont Eq ma mb))
    by (symmetry; exact (Pos.compare_cont_antisym ma mb Eq)).
  destruct sa, sb; simpl; try reflexivity;
    rewrite (Z.compare_antisym ea eb);
    destruct (ea ?= eb)%Z; simpl; try reflexivity;
    rewrite Hm; try rewrite CompOpp_involutive; reflexivity.
Qed.

Lemma SFcompare_refl (a : spec_float) :
  a <> S754_nan -> SFcompare a a = Some Eq.
Proof.
  destruct a as [s|s| |s m e]; simpl; intros Hn;
    try reflexivity; try (destruct s; reflexivity); try congruence.
  destruct s; rewrite Z.compare_refl, Pos.compare_cont_refl; reflexivity.
Qed.

Lemma is_nan_Prim2SF (f : float) :
  is_nan f = false <-> Prim2SF f <> S754_nan.
Proof.
  unfold is_nan. rewrite FloatAxioms.eqb_spec. unfold SFeqb. split.
  - intros H Hn. rewrite Hn in H. simpl in H. discriminate.
  - intros Hn. rewrite SFcompare_refl by assumption. reflexivity.
Qed.

Lemma ltb_leb (a b : float) : (a <? b) = true -> (a <=? b) = true.
Proof.
  rewrite FloatAxioms.ltb_spec, FloatAxioms.leb_spec. unfold SFltb, SFleb.
  destruct (SFcompare (Prim2SF a) (Prim2SF b)) as [[]|]; congruence.
Qed.

Lemma ltb_not_nan_r (a b : float) : (a <? b) = true -> is_nan b = false.
Proof.
  rewrite FloatAxioms.ltb_spec. unfold SFltb. intros H. apply is_nan_Prim2SF. intros Hn.
  rewrite Hn in H. destruct (Prim2SF a); discriminate.
Qed.

Lemma leb_refl (a : float) : is_nan a = false -> (a <=? a) = true.
Proof.
  intros H. apply is_nan_Prim2SF in H. rewrite FloatAxioms.leb_spec. unfold SFleb.
  rewrite SFcompare_refl by assumption. reflexivity.
Qed.

Lemma ltb_irrefl (a : float) : (a <? a) = false.
Proof.
  rewrite FloatAxioms.ltb_spec. unfold SFltb.
  destruct (Prim2SF a) as [s|s| |s m e] eqn:E; simpl; try reflexivity;
    try (destruct s; reflexivity).
  destruct s; rewrite Z.compare_refl, Pos.compare_cont_refl; reflexivity.
Qed.

Lemma not_ltb_leb (a b : float) :
  is_nan a = false -> is_nan b = false ->
  (a <? b) = false -> (b <=? a) = true.
Proof.
  intros Ha Hb. apply is_nan_Prim2SF in Ha, Hb.
  rewrite FloatAxioms.ltb_spec, FloatAxioms.leb_spec. unfold SFltb, SFleb.
  rewrite (SFcompare_antisym (Prim2SF a) (Prim2SF b)).
  destruct (SFcompare (Prim2SF a) (Prim2SF b)) as [[]|] eqn:E; simpl;
    try congruence.
  destruct (Prim2SF a), (Prim2SF b); simpl in E; congruence.
Qed.

End FloatOrder.

(** ** Boundary handling *)

Lemma applyBoundaries_x (cv : Canvas) (p : Particle.t) :
  Particle.x (applyBoundaries cv p) =
    if Particle.x p <? 0 then width cv
    else if width cv <? Particle.x p then 0 else Particle.x p.
Proof.
  unfold applyBoundaries.
  destruct (Particle.x p <? 0); [|destruct (width cv <? Particle.x p)];
    simpl;
    (destruct (Particle.y p <? 0); [|destruct (height cv <? Particle.y p)]);
    reflexivity.
Qed.

Lemma applyBoundaries_y (cv : Canvas) (p : Particle.t) :
  Particle.y (applyBoundaries cv p) =
    if Particle.y p <? 0 then height cv
    else if height cv <? Particle.y p then 0 else Particle.y p.
Proof.
  unfold applyBoundaries.
  destruct (Particle.x p <? 0); [|destruct (width cv <? Particle.x p)];
    simpl;
    (destruct (Particle.y p <? 0); [|destruct (height cv <? Particle.y p)]);
    reflexivity.
Qed.

Lemma wrap_between (limit v : float) :
  (0 <? limit) = true -> is_nan v = false ->
  Num.between 0 limit
    (if v <? 0 then limit else if limit <? v then 0 else v) = true.
Proof.
  intros Hpos Hv. unfold Num.between.
  pose proof (ltb_not_nan_r _ _ Hpos) as Hl.
  destruct (v <? 0) eqn:E1; [|destruct (limit <? v) eqn:E2].
  - rewrite (ltb_leb _ _ Hpos), (leb_refl _ Hl). reflexivity.
  - rewrite (ltb_leb _ _ Hpos). reflexivity.
  - rewrite (not_ltb_leb v 0 Hv eq_refl E1), (not_ltb_leb limit v Hl Hv E2).
    reflexivity.
Qed.

(** C1, as stated, fails: a particle one unit left of a 100 x 100 surface is
    put at [x = 100], which is not below the width. *)
Lemma applyBoundaries_not_half_open :
  (0 <? width (mkCanvas 100 100)) = true /\
  (0 <? height (mkCanvas 100 100)) = true /\
  Particle.x (applyBoundaries (mkCanvas 100 100) strayParticle) = 100 /\
  Num.within 0 (width (mkCanvas 100 100))
    (Particle.x (applyBoundaries (mkCanvas 100 100) strayParticle)) = false.
Proof. vm_compute. repeat split. Qed.

(** C1, amended: for positive width and height and coordinates that are
    numbers, the position after [applyBoundaries] lies in the closed ranges
    [0 <= x <= width] and [0 <= y <= height]. *)
Theorem applyBoundaries_closed_range (cv : Canvas) (p : Particle.t) :
  (0 <? width cv) = true -> (0 <? height cv) = true ->
  is_nan (Particle.x p) = false -> is_nan (Particle.y p) = false ->
  Num.between 0 (width cv) (Particle.x (applyBoundaries cv p)) = true /\
  Num.between 0 (height cv) (Particle.y (applyBoundaries cv p)) = true.
Proof.
  intros Hw Hh Hx Hy. rewrite applyBoundaries_x, applyBoundaries_y.
  split; apply wrap_between; assumption.
Qed.

(** The stray particle on a 100 x 100 surface ends on the right edge. *)
Lemma applyBoundaries_closed_range_witness :
  Num.between 0 100
    (Particle.x (applyBoundaries (mkCanvas 100 100) strayParticle)) = true /\
  Num.between 0 100
    (Particle.y (applyBoundaries (mkCanvas 100 100) strayParticle)) = true.
Proof.
  apply (applyBoundaries_closed_range (mkCanvas 100 100) strayParticle);
    vm_compute; reflexivity.
Defined.

(** ** Code that draws random numbers *)

Lemma forEach_length {A : Type} (body : A -> Rand A) (l : list A) (n : nat) :
  length (forEach body l n).1 = length l.
Proof.
  revert n. induction l as [|a l IH]; intros n; [reflexivity|].
  simpl. unfold bind. destruct (body a n) as [a' n1].
  specialize (IH n1). destruct (forEach body l n1) as [l' n2].
  simpl in *. now rewrite IH.
Qed.

Lemma forEach_lookup {A : Type} (body : A -> Rand A) (l : list A) (n i : nat)
    (a : A) :
  l !! i = Some a -> exists m, (forEach body l n).1 !! i = Some (body a m).1.
Proof.
  revert n i. induction l as [|b l IH]; intros n i Hi; [discriminate|].
  simpl. unfold bind. destruct (body b n) as [b' n1] eqn:Eb.
  destruct i as [|i]; simpl in Hi.
  - injection Hi as ->. exists n. destruct (forEach body l n1).
    simpl. now rewrite Eb.
  - destruct (IH n1 i Hi) as [m Hm]. exists m.
    destruct (forEach body l n1). exact Hm.
Qed.


(** ** Fields a step leaves alone *)

Ltac split_ifs :=
  repeat match goal with
         | |- context [if ?c then _ else _] => destruct c eqn:?
         end.

Lemma applyBoundaries_id (cv : Canvas) (p : Particle.t) :
  Particle.id (applyBoundaries cv p) = Particle.id p.
Proof. unfold applyBoundaries. split_ifs; reflexivity. Qed.

Lemma applyBoundaries_vx (cv : Canvas) (p : Particle.t) :
  Particle.vx (applyBoundaries cv p) = Particle.vx p.
Proof. unfold applyBoundaries. split_ifs; reflexivity. Qed.

Lemma applyBoundaries_vy (cv : Canvas) (p : Particle.t) :
  Particle.vy (applyBoundaries cv p) = Particle.vy p.
Proof. unfold applyBoundaries. split_ifs; reflexivity. Qed.

Lemma applyBoundaries_size (cv : Canvas) (p : Particle.t) :
  Particle.size (applyBoundaries cv p) = Particle.size p.
Proof. unfold applyBoundaries. split_ifs; reflexivity. Qed.

Lemma applyBoundaries_phase (cv : Canvas) (p : Particle.t) :
  Particle.phase (applyBoundaries cv p) = Particle.phase p.
Proof. unfold applyBoundaries. split_ifs; reflexivity. Qed.

Lemma applyBoundaries_density (cv : Canvas) (p : Particle.t) :
  Particle.density (applyBoundaries cv p) = Particle.density p.
Proof. unfold applyBoundaries. split_ifs; reflexivity. Qed.

Lemma applyBoundaries_temperature (cv : Canvas) (p : Particle.t) :
  Particle.temperature (applyBoundaries cv p) = Particle.temperature p.
Proof. unfold applyBoundaries. split_ifs; reflexivity. Qed.

Lemma applyBoundaries_life (cv : Canvas) (p : Particle.t) :
  Particle.life (applyBoundaries cv p) = Particle.life p.
Proof. unfold applyBoundaries. split_ifs; reflexivity. Qed.

Lemma applyBoundaries_maxLife (cv : Canvas) (p : Particle.t) :
  Particle.maxLife (applyBoundaries cv p) = Particle.maxLife p.
Proof. unfold applyBoundaries. split_ifs; reflexivity. Qed.

Lemma applyBoundaries_color (cv : Canvas) (p : Particle.t) :
  Particle.color (applyBoundaries cv p) = Particle.color p.
Proof. unfold applyBoundaries. split_ifs; reflexivity. Qed.

Lemma applyBoundaries_buoyancy (cv : Canvas) (p : Particle.t) :
  Particle.buoyancy (applyBoundaries cv p) = Particle.buoyancy p.
Proof. unfold applyBoundaries. split_ifs; reflexivity. Qed.

Lemma setPhaseProperties_id (p : Particle.t) :
  Particle.id (setPhaseProperties p) = Particle.id p.
Proof. unfold setPhaseProperties. split_ifs; reflexivity. Qed.

Lemma setPhaseProperties_x (p : Particle.t) :
  Particle.x (setPhaseProperties p) = Particle.x p.
Proof. unfold setPhaseProperties. split_ifs; reflexivity. Qed.

Lemma setPhaseProperties_y (p : Particle.t) :
  Particle.y (setPhaseProperties p) = Particle.y p.
Proof. unfold setPhaseProperties. split_ifs; reflexivity. Qed.

Lemma setPhaseProperties_vx (p : Particle.t) :
  Particle.vx (setPhaseProperties p) = Particle.vx p.
Proof. unfold setPhaseProperties. split_ifs; reflexivity. Qed.

Lemma setPhaseProperties_vy (p : Particle.t) :
  Particle.vy (setPhaseProperties p) = Particle.vy p.
Proof. unfold setPhaseProperties. split_ifs; reflexivity. Qed.

Lemma setPhaseProperties_phase (p : Particle.t) :
  Particle.phase (setPhaseProperties p) = Particle.phase p.
Proof. unfold setPhaseProperties. split_ifs; reflexivity. Qed.

Lemma setPhaseProperties_density (p : Particle.t) :
  Particle.density (setPhaseProperties p) = Particle.density p.
Proof. unfold setPhaseProperties. split_ifs; reflexivity. Qed.

Lemma setPhaseProperties_temperature (p : Particle.t) :
  Particle.temperature (setPhaseProperties p) = Particle.temperature p.
Proof. unfold setPhaseProperties. split_ifs; reflexivity. Qed.

Lemma setPhaseProperties_life (p : Particle.t) :
  Particle.life (setPhaseProperties p) = Particle.life p.
Proof. unfold setPhaseProperties. split_ifs; reflexivity. Qed.

Lemma setPhaseProperties_maxLife (p : Particle.t) :
  Particle.maxLife (setPhaseProperties p) = Particle.maxLife p.
Proof. unfold setPhaseProperties. split_ifs; reflexivity. Qed.

Create Rewrite HintDb particle.

#[export] Hint Rewrite
  applyBoundaries_id
  applyBoundaries_vx
  applyBoundaries_vy
  applyBoundaries_size
  applyBoundaries_phase
  applyBoundaries_density
  applyBoundaries_temperature
  applyBoundaries_life
  applyBoundaries_maxLife
  applyBoundaries_color
  applyBoundaries_buoyancy
  setPhaseProperties_id
  setPhaseProperties_x
  setPhaseProperties_y
  setPhaseProperties_vx
  setPhaseProperties_vy
  setPhaseProperties_phase
  setPhaseProperties_density
  setPhaseProperties_temperature
  setPhaseProperties_life
  setPhaseProperties_maxLife
  : particle.

Ltac fields := repeat (progress (simpl; autorewrite with particle)).

Section TickProperties.

Context {Math : MathObject}.

(** ** One tick of one particle *)

Ltac tick_unfold :=
  unfold updateParticle, applyFlowForces, checkPhaseChange, resetParticle,
    bind, ret, random; cbn [fst snd].

Lemma updateParticle_phase (s : FlowSimulation) (p : Particle.t) (n : nat) :
  Particle.phase (updateParticle s p n).1 =
    if String.eqb (Particle.phase p) "liquid"
       && (criticalTemp <? Particle.temperature p) then "vapor"%string
    else if String.eqb (Particle.phase p) "vapor"
            && (Particle.temperature p <? criticalTemp) then "liquid"%string
    else Particle.phase p.
Proof.
  tick_unfold.
  match goal with
  | |- context [if ?c <=? 0 then _ else _] => destruct (c <=? 0)
  end; fields; split_ifs; fields; reflexivity.
Qed.

Lemma updateParticle_size (s : FlowSimulation) (p : Particle.t) (n : nat) :
  Particle.size (updateParticle s p n).1 =
    if String.eqb (Particle.phase p) "liquid"
       && (criticalTemp <? Particle.temperature p) then Particle.size p * 0.6
    else if String.eqb (Particle.phase p) "vapor"
            && (Particle.temperature p <? criticalTemp) then
      Particle.size p * 1.2
    else Particle.size p.
Proof.
  tick_unfold.
  match goal with
  | |- context [if ?c <=? 0 then _ else _] => destruct (c <=? 0)
  end; fields; split_ifs; fields; reflexivity.
Qed.

Lemma updateParticle_gas (s : FlowSimulation) (p : Particle.t) (n : nat) :
  Particle.phase p = "gas"%string ->
  Particle.phase (updateParticle s p n).1 = "gas"%string.
Proof. intros H. rewrite updateParticle_phase, H. reflexivity. Qed.

(** ** Ticks of the pool *)

Lemma updateParticles_lookup (s : FlowSimulation) (n i : nat) (p : Particle.t) :
  particles s !! i = Some p ->
  exists m, particles (updateParticles s n).1 !! i
            = Some (updateParticle s p m).1.
Proof.
  intros Hi. destruct (forEach_lookup (updateParticle s) _ n _ _ Hi) as [m Hm].
  exists m. unfold updateParticles, bind, ret.
  destruct (forEach (updateParticle s) (particles s) n). exact Hm.
Qed.


Lemma animate_lookup (w : World) (i : nat) (p : Particle.t) :
  particles (this w) !! i = Some p ->
  particles (this (animate w)) !! i = Some p \/
  exists s m, particles (this (animate w)) !! i = Some (updateParticle s p m).1.
Proof.
  intros Hi. unfold animate. destruct (isRunning (this w)); simpl; [|now left].
  right. set (s1 := set_time (time (this w) + 1) (this w)).
  destruct (updateParticles_lookup s1 (draws (host w)) i p Hi) as [m Hm].
  exists s1, m. destruct (updateParticles s1 (draws (host w))). exact Hm.
Qed.

Lemma animate_gas (w : World) (i : nat) (p : Particle.t) :
  particles (this w) !! i = Some p -> Particle.phase p = "gas"%string ->
  exists q, particles (this (animate w)) !! i = Some q
            /\ Particle.phase q = "gas"%string.
Proof.
  intros Hi Hp. destruct (animate_lookup w i p Hi) as [H|(s & m & H)].
  - now exists p.
  - exists (updateParticle s p m).1. split; [exact H|].
    now apply updateParticle_gas.
Qed.

Lemma iter_animate_gas (k : nat) (w : World) (i : nat) (p : Particle.t) :
  particles (this w) !! i = Some p -> Particle.phase p = "gas"%string ->
  exists q, particles (this (Nat.iter k animate w)) !! i = Some q
            /\ Particle.phase q = "gas"%string.
Proof.
  intros Hi Hp. induction k as [|k (q & Hq & Hg)]; [now exists p|].
  simpl. exact (animate_gas _ i q Hq Hg).
Qed.

(** C2: on a tick ([updateParticles]) a liquid particle whose temperature
    exceeds 373.15 becomes vapor, a vapor particle whose temperature is below
    373.15 becomes liquid, and a gas particle stays gas, on that tick and
    after any number of calls of [animate]. *)
Theorem phase_changes_on_tick (w : World) (i : nat) (p : Particle.t) :
  particles (this w) !! i = Some p ->
  (forall n, exists p',
     particles (updateParticles (this w) n).1 !! i = Some p' /\
     (Particle.phase p = "liquid"%string ->
      (criticalTemp <? Particle.temperature p) = true ->
      Particle.phase p' = "vapor"%string) /\
     (Particle.phase p = "vapor"%string ->
      (Particle.temperature p <? criticalTemp) = true ->
      Particle.phase p' = "liquid"%string) /\
     (Particle.phase p = "gas"%string -> Particle.phase p' = "gas"%string)) /\
  (Particle.phase p = "gas"%string ->
   forall k, exists q,
     particles (this (Nat.iter k animate w)) !! i = Some q /\
     Particle.phase q = "gas"%string).
Proof.
  intros Hi. split.
  - intros n. destruct (updateParticles_lookup (this w) n i p Hi) as [m Hm].
    exists (updateParticle (this w) p m).1. split; [exact Hm|].
    rewrite updateParticle_phase. repeat split.
    + intros -> ->. reflexivity.
    + intros -> ->. reflexivity.
    + intros ->. reflexivity.
  - intros Hp k. now apply iter_animate_gas with p.
Qed.

(** ** Life *)

Lemma createParticle_life (s : FlowSimulation) (i : Z) (n : nat) :
  Particle.life (createParticle s i n).1 = 1.
Proof. unfold createParticle, bind, ret, random. fields. reflexivity. Qed.


Lemma updateParticle_life_step (s : FlowSimulation) (p : Particle.t) (n : nat) :
  exists q,
    Particle.life q = Particle.life p - 1 / Particle.maxLife p /\
    updateParticle s p n =
      if Particle.life p - 1 / Particle.maxLife p <=? 0
      then resetParticle s q (3 + n)%nat else (q, (3 + n)%nat).
Proof.
  unfold updateParticle, applyFlowForces, checkPhaseChange, bind, ret, random.
  match goal with
  | |- context [applyBoundaries ?cv ?a] => set (p5 := applyBoundaries cv a)
  end.
  assert (Hl : Particle.life p5 = Particle.life p)
    by (subst p5; fields; split_ifs; fields; reflexivity).
  assert (Hm : Particle.maxLife p5 = Particle.maxLife p)
    by (subst p5; fields; split_ifs; fields; reflexivity).
  exists (Particle.set_life (Particle.life p5 - 1 / Particle.maxLife p5) p5).
  cbn [Particle.life Particle.set_life]. rewrite Hl, Hm.
  split; [reflexivity|].
  destruct (Particle.life p - 1 / Particle.maxLife p <=? 0); reflexivity.
Qed.




(** C10: [resetParticle] leaves every field but [x], [y], [life] and
    [temperature] as it was. *)
Theorem resetParticle_frame (s : FlowSimulation) (p : Particle.t) (n : nat) :
  let p' := (resetParticle s p n).1 in
  Particle.id p' = Particle.id p /\
  Particle.vx p' = Particle.vx p /\
  Particle.vy p' = Particle.vy p /\
  Particle.size p' = Particle.size p /\
  Particle.phase p' = Particle.phase p /\
  Particle.density p' = Particle.density p /\
  Particle.buoyancy p' = Particle.buoyancy p /\
  Particle.color p' = Particle.color p /\
  Particle.maxLife p' = Particle.maxLife p.
Proof. repeat split. Qed.

(** ** Size across phase changes *)

Lemma checkPhaseChange_size (p : Particle.t) (n : nat) :
  Particle.size (checkPhaseChange p n).1 =
    if String.eqb (Particle.phase p) "liquid"
       && (criticalTemp <? Particle.temperature p) then Particle.size p * 0.6
    else if String.eqb (Particle.phase p) "vapor"
            && (Particle.temperature p <? criticalTemp) then
      Particle.size p * 1.2
    else Particle.size p.
Proof.
  unfold checkPhaseChange, bind, ret, random.
  fields; split_ifs; fields; reflexivity.
Qed.

Lemma quietTicks_vapor (p q : Particle.t) :
  quietTicks p q -> Particle.phase p = "vapor"%string ->
  Particle.phase q = "vapor"%string /\ Particle.size q = Particle.size p.
Proof.
  induction 1 as [p|s n p p' q Hwarm -> _ IH]; intros Hp; [now split|].
  destruct IH as [IH1 IH2].
  - rewrite updateParticle_phase, Hp, Hwarm. reflexivity.
  - split; [exact IH1|].
    rewrite IH2, updateParticle_size, Hp, Hwarm. reflexivity.
Qed.

(** C4: a phase change multiplies the size the particle has at that moment
    by the multiplier of the new phase.  A liquid particle that turns to
    vapor on one tick and, after any ticks on which it does not change
    phase, back to liquid ends with its original size [* 0.6 * 1.2]. *)
Theorem size_compounds (s1 s2 : FlowSimulation) (n1 n2 : nat)
    (p q : Particle.t) :
  Particle.phase p = "liquid"%string ->
  (criticalTemp <? Particle.temperature p) = true ->
  quietTicks (updateParticle s1 p n1).1 q ->
  (Particle.temperature q <? criticalTemp) = true ->
  (forall p0 n0,
     Particle.size (checkPhaseChange p0 n0).1 =
       if String.eqb (Particle.phase p0) "liquid"
          && (criticalTemp <? Particle.temperature p0)
       then Particle.size p0 * 0.6
       else if String.eqb (Particle.phase p0) "vapor"
               && (Particle.temperature p0 <? criticalTemp)
       then Particle.size p0 * 1.2
       else Particle.size p0) /\
  Particle.phase (updateParticle s1 p n1).1 = "vapor"%string /\
  Particle.size (updateParticle s1 p n1).1 = Particle.size p * 0.6 /\
  Particle.phase q = "vapor"%string /\
  Particle.size q = Particle.size p * 0.6 /\
  Particle.phase (updateParticle s2 q n2).1 = "liquid"%string /\
  Particle.size (updateParticle s2 q n2).1 = Particle.size p * 0.6 * 1.2.
Proof.
  intros Hp Hhot Hmid Hcold.
  assert (H1 : Particle.phase (updateParticle s1 p n1).1 = "vapor"%string)
    by (rewrite updateParticle_phase, Hp, Hhot; reflexivity).
  assert (H2 : Particle.size (updateParticle s1 p n1).1 = Particle.size p * 0.6)
    by (rewrite updateParticle_size, Hp, Hhot; reflexivity).
  destruct (quietTicks_vapor _ _ Hmid H1) as [H3 H4]. rewrite H2 in H4.
  split; [exact checkPhaseChange_size|].
  split; [exact H1|]. split; [exact H2|]. split; [exact H3|].
  split; [exact H4|]. split.
  - rewrite updateParticle_phase, H3, Hcold. reflexivity.
  - rewrite updateParticle_size, H3, Hcold, <- H4. reflexivity.
Qed.

(** ** Flow speed *)

Lemma applyFlowForces_setFlowSpeed (v : float) (s : FlowSimulation)
    (p : Particle.t) (n : nat) :
  applyFlowForces (setFlowSpeed v s) p n = applyFlowForces s p n.
Proof. reflexivity. Qed.

Lemma resetParticle_setFlowSpeed (v : float) (s : FlowSimulation)
    (p : Particle.t) (n : nat) :
  resetParticle (setFlowSpeed v s) p n = resetParticle s p n.
Proof. reflexivity. Qed.

Lemma updateParticle_setFlowSpeed (v : float) (s : FlowSimulation)
    (p : Particle.t) (n : nat) :
  updateParticle (setFlowSpeed v s) p n = updateParticle s p n.
Proof.
  unfold updateParticle, bind. rewrite applyFlowForces_setFlowSpeed.
  destruct (applyFlowForces s p n) as [p1 n1].
  destruct (checkPhaseChange p1 n1) as [p2 n2].
  change (canvas (setFlowSpeed v s)) with (canvas s).
  match goal with
  | |- context [if ?c then _ else _] => destruct c
  end; [apply resetParticle_setFlowSpeed|reflexivity].
Qed.

Lemma forEach_ext {A : Type} (f g : A -> Rand A) (l : list A) (n : nat) :
  (forall a m, f a m = g a m) -> forEach f l n = forEach g l n.
Proof.
  intros H. revert n. induction l as [|a l IH]; intros n; [reflexivity|].
  simpl. unfold bind. rewrite H. destruct (g a n) as [a' n1].
  now rewrite IH.
Qed.

Lemma updateParticles_setFlowSpeed (v : float) (s : FlowSimulation) (n : nat) :
  updateParticles (setFlowSpeed v s) n =
    (setFlowSpeed v (updateParticles s n).1, (updateParticles s n).2).
Proof.
  unfold updateParticles, bind, ret.
  rewrite (forEach_ext (updateParticle (setFlowSpeed v s)) (updateParticle s))
    by (intros; apply updateParticle_setFlowSpeed).
  change (particles (setFlowSpeed v s)) with (particles s).
  destruct (forEach (updateParticle s) (particles s) n). reflexivity.
Qed.

Lemma setPhaseProperties_velocity (a b : float) (p : Particle.t) :
  Particle.set_vx a (Particle.set_vy b (setPhaseProperties p)) =
  setPhaseProperties (Particle.set_vx a (Particle.set_vy b p)).
Proof. unfold setPhaseProperties. simpl. split_ifs; reflexivity. Qed.

Lemma createParticle_draws (s : FlowSimulation) (i : Z) (n : nat) :
  (createParticle s i n).2 = (9 + n)%nat.
Proof. reflexivity. Qed.

Lemma createParticle_velocity (s : FlowSimulation) (i : Z) (n : nat) :
  Particle.vx (createParticle s i n).1 =
    (Math_random (2 + n) - 0.5) * Options.flowSpeed (options s) /\
  Particle.vy (createParticle s i n).1 =
    (Math_random (3 + n) - 0.5) * Options.flowSpeed (options s).
Proof.
  unfold createParticle, bind, ret, random. fields. split; reflexivity.
Qed.

Lemma createParticle_setFlowSpeed (v : float) (s : FlowSimulation) (i : Z)
    (n : nat) :
  sameButVelocity (createParticle (setFlowSpeed v s) i n).1
                  (createParticle s i n).1.
Proof.
  unfold sameButVelocity, createParticle, bind, ret, random. cbn [fst].
  rewrite !setPhaseProperties_velocity. reflexivity.
Qed.

Lemma createLoop_setFlowSpeed (v : float) (s : FlowSimulation) (l : list Z)
    (n : nat) :
  Forall2 sameButVelocity (createLoop (setFlowSpeed v s) l n).1
                          (createLoop s l n).1 /\
  (createLoop (setFlowSpeed v s) l n).2 = (createLoop s l n).2.
Proof.
  revert n. induction l as [|i l IH]; intros n; [now split|].
  cbn [createLoop]. unfold bind.
  pose proof (createParticle_setFlowSpeed v s i n) as Hp.
  pose proof (createParticle_draws (setFlowSpeed v s) i n) as Hd1.
  pose proof (createParticle_draws s i n) as Hd2.
  destruct (createParticle (setFlowSpeed v s) i n) as [p1 m1].
  destruct (createParticle s i n) as [p2 m2].
  cbn [fst snd] in *. subst m1 m2. destruct (IH (9 + n)%nat) as [IH1 IH2].
  destruct (createLoop (setFlowSpeed v s) l (9 + n)%nat) as [ps1 k1].
  destruct (createLoop s l (9 + n)%nat) as [ps2 k2].
  cbn [fst snd ret] in *. split; [now constructor|assumption].
Qed.

Lemma createLoop_velocity (s : FlowSimulation) (l : list Z) (n : nat)
    (p : Particle.t) :
  p ∈ (createLoop s l n).1 ->
  exists m,
    Particle.vx p = (Math_random m - 0.5) * Options.flowSpeed (options s) /\
    Particle.vy p = (Math_random (S m) - 0.5) * Options.flowSpeed (options s).
Proof.
  revert n. induction l as [|i l IH]; intros n; cbn [createLoop].
  - intros H. inversion H.
  - unfold bind. pose proof (createParticle_velocity s i n) as Hv.
    destruct (createParticle s i n) as [q n1]. specialize (IH n1).
    destruct (createLoop s l n1) as [ps n2]. cbn [fst snd ret] in *.
    intros [->|H]%elem_of_cons; [now exists (2 + n)%nat|now apply IH].
Qed.

(** C8: a tick does not read [flowSpeed]: changing the stored flow speed
    changes neither the particles a tick produces nor the random numbers
    it draws.  [createParticles] reads it for the initial velocity
    [(Math.random() - 0.5) * flowSpeed] and for nothing else. *)
Theorem flowSpeed_only_seeds_velocity (v : float) (s : FlowSimulation)
    (n : nat) :
  (forall p, updateParticle (setFlowSpeed v s) p n = updateParticle s p n) /\
  particles (updateParticles (setFlowSpeed v s) n).1
    = particles (updateParticles s n).1 /\
  updateParticles (setFlowSpeed v s) n =
    (setFlowSpeed v (updateParticles s n).1, (updateParticles s n).2) /\
  Forall2 sameButVelocity
    (particles (createParticles (setFlowSpeed v s) n).1)
    (particles (createParticles s n).1) /\
  (createParticles (setFlowSpeed v s) n).2 = (createParticles s n).2 /\
  (forall p, p ∈ particles (createParticles s n).1 ->
     exists m,
       Particle.vx p = (Math_random m - 0.5) * Options.flowSpeed (options s) /\
       Particle.vy p
         = (Math_random (S m) - 0.5) * Options.flowSpeed (options s)).
Proof.
  split; [intros p; apply updateParticle_setFlowSpeed|].
  split; [now rewrite updateParticles_setFlowSpeed|].
  split; [apply updateParticles_setFlowSpeed|].
  unfold createParticles, bind, ret.
  change (Options.particleCount (options (setFlowSpeed v s)))
    with (Options.particleCount (options s)).
  pose proof (createLoop_setFlowSpeed v s
                (seqZ 0 (Options.particleCount (options s))) n) as [H1 H2].
  pose proof (createLoop_velocity s
                (seqZ 0 (Options.particleCount (options s))) n) as H3.
  destruct (createLoop (setFlowSpeed v s) _ n) as [ps1 k1].
  destruct (createLoop s _ n) as [ps2 k2].
  cbn [fst snd particles set_particles] in *. repeat split; assumption.
Qed.

End TickProperties.

(** ** Construction *)

Section Construction.

Context {Math : MathObject}.

Lemma createParticles_this (s : FlowSimulation) (n : nat) :
  (createParticles s n).1
    = set_particles (createLoop s (seqZ 0 (Options.particleCount (options s))) n).1 s.
Proof.
  unfold createParticles, bind, ret. now destruct (createLoop s _ n).
Qed.

(** C7, as stated, fails: the constructor raises no error of its own for
    an absent container.  With [null] the construction ends in
    [setupCanvas] with the TypeError the engine raises for reading
    [offsetWidth] of [null], which describes no construction. *)
Lemma absent_container_gets_no_construction_error :
  exists e,
    @construct stillMath Null Config.empty freshHost = Throw e /\
    e = TypeError_reading "offsetWidth" /\
    thrownByProgram e = false.
Proof. eexists. repeat split. Qed.

(** C7, amended: the constructor does not check its container.  With an
    absent container, [null] or [undefined], construction ends in
    [setupCanvas] with the TypeError of reading [offsetWidth] from it, and
    returns no simulation; with a
    container it returns one; and no exception a construction ends with is
    one the program throws itself. *)
Theorem construct_absent_container (cfg : Config.t) (h : Host) :
  construct Null cfg h = Throw (TypeError_reading "offsetWidth") /\
  construct Undefined cfg h = Throw (TypeError_reading "offsetWidth") /\
  (forall c, (exists w, construct c cfg h = Normal w) <-> exists el, c = Obj el) /\
  (forall c e, construct c cfg h = Throw e -> thrownByProgram e = false).
Proof.
  split; [reflexivity|]. split; [reflexivity|]. split.
  - intros c. split.
    + intros [w Hw]. destruct c as [| |el]; try discriminate. now exists el.
    + intros [el ->]. unfold construct. cbn [setupCanvas].
      destruct (createParticles _ (draws h)) as [s n]. eauto.
  - intros c e. destruct c as [| |el].
    + intros [= <-]. reflexivity.
    + intros [= <-]. reflexivity.
    + unfold construct. cbn [setupCanvas].
      destruct (createParticles _ (draws h)) as [s n]. discriminate.
Qed.

(** C9, as stated, fails: constructed with [{ turbulence: 0 }] the
    simulation has turbulence [0], not the default [0.1]. *)
Lemma explicit_zero_turbulence_is_kept :
  match @construct stillMath (Obj (mkContainer 100 100)) zeroTurbulence freshHost
  with
  | Normal w =>
      Config.turbulence zeroTurbulence = Some 0 /\
      Options.turbulence (options (this w)) = 0 /\
      (Options.turbulence (options (this w)) =? 0.1) = false
  | Throw _ => False
  end.
Proof. vm_compute. repeat split. Qed.

(** C9, amended: the constructor stores every value the configuration
    holds as it is, zero and the other falsy numbers included, because the
    spread [...options] overwrites what [||] chose; the defaults are used
    for the keys the configuration does not hold. *)
Theorem construct_keeps_explicit_values (c : Container) (cfg : Config.t)
    (h : Host) :
  exists w,
    construct (Obj c) cfg h = Normal w /\
    Options.particleCount (options (this w))
      = default 100%Z (Config.particleCount cfg) /\
    Options.flowSpeed (options (this w)) = default 1 (Config.flowSpeed cfg) /\
    Options.turbulence (options (this w))
      = default 0.1 (Config.turbulence cfg) /\
    Options.phaseTypes (options (this w))
      = default ["gas"; "liquid"]%string (Config.phaseTypes cfg) /\
    Options.temperature (options (this w))
      = default 293.15 (Config.temperature cfg) /\
    Options.pressure (options (this w)) = default 101325 (Config.pressure cfg).
Proof.
  unfold construct. cbn [setupCanvas].
  match goal with
  | |- context [createParticles ?s0 ?n0] =>
      pose proof (createParticles_this s0 n0) as Hs;
      destruct (createParticles s0 n0) as [s n]
  end.
  cbn [fst] in Hs. subst s. eexists. split; [reflexivity|].
  destruct cfg as [[pc|] [fs|] [tb|] [pt|] [tp|] [pr|]]; cbn;
    repeat split; repeat case_match; reflexivity.
Qed.

End Construction.

(** ** Phase distribution *)

Lemma addCount_comm (v1 v2 : Value) (t : option nat) :
  addCount v1 (addCount v2 t) = addCount v2 (addCount v1 t).
Proof.
  destruct v1, v2, t as [t|]; cbn; try reflexivity. f_equal. lia.
Qed.

Lemma totalCount_insert_fresh (d : gmap string Value) (k : string) (v : Value) :
  d !! k = None -> totalCount (<[k:=v]> d) = addCount v (totalCount d).
Proof.
  intros Hk. unfold totalCount.
  rewrite map_fold_insert_L; [reflexivity| |exact Hk].
  intros. apply addCount_comm.
Qed.

Lemma totalCount_lookup (d : gmap string Value) (k : string) (v : Value) :
  d !! k = Some v -> totalCount d = addCount v (totalCount (delete k d)).
Proof.
  intros Hk. unfold totalCount.
  rewrite (map_fold_delete_L _ _ k v d); [reflexivity| |exact Hk].
  intros. apply addCount_comm.
Qed.

Lemma totalCount_insert (d : gmap string Value) (k : string) (v : Value) :
  totalCount (<[k:=v]> d) = addCount v (totalCount (delete k d)).
Proof.
  rewrite <- insert_delete_eq.
  apply totalCount_insert_fresh, lookup_delete_eq.
Qed.

(** One particle more in the phase [k]. *)
Lemma entryFor_step (k : string) (c : nat) (d : gmap string Value) :
  d !! k = entryFor k c ->
  setProperty d k (orZeroPlusOne (getProperty d k)) !! k = entryFor k (S c).
Proof.
  intros Hd. unfold setProperty, getProperty, entryFor in *.
  destruct (String.eqb k "__proto__") eqn:E.
  - rewrite Hd. now destruct c.
  - rewrite lookup_insert_eq, Hd.
    destruct (decide (k ∈ objectPrototypeMembers)); destruct c as [|c];
      cbn; try reflexivity.
    do 2 f_equal. lia.
Qed.

Lemma setProperty_other (k k' : string) (v : Value) (d : gmap string Value) :
  k' <> k -> setProperty d k' v !! k = d !! k.
Proof.
  intros Hne. unfold setProperty.
  destruct (String.eqb k' "__proto__"); [reflexivity|].
  now apply lookup_insert_ne.
Qed.

Lemma distribution_fold_lookup (k : string) (ps : list Particle.t) :
  fold_left
    (fun distribution p =>
       setProperty distribution (Particle.phase p)
         (orZeroPlusOne (getProperty distribution (Particle.phase p))))
    ps ∅ !! k
  = entryFor k (length (withPhase k ps)).
Proof.
  induction ps as [|p ps IH] using rev_ind; [reflexivity|].
  rewrite fold_left_app. cbn [fold_left]. unfold withPhase in *.
  rewrite filter_app, length_app, filter_cons, filter_nil.
  destruct (decide (Particle.phase p = k)) as [->|Hne]; cbn [length].
  - rewrite Nat.add_1_r. now apply entryFor_step.
  - rewrite Nat.add_0_r, setProperty_other by exact Hne. exact IH.
Qed.

(** Counting a particle whose label names no member of [Object.prototype]
    adds one to the sum. *)
Lemma totalCount_plain_label (k : string) (c : nat) (d : gmap string Value) :
  k ∉ objectPrototypeMembers ->
  d !! k = entryFor k c ->
  totalCount (setProperty d k (orZeroPlusOne (getProperty d k)))
    = S <$> totalCount d.
Proof.
  intros Hk Hd. unfold setProperty, getProperty.
  assert (E : String.eqb k "__proto__" = false).
  { apply String.eqb_neq. intros ->. apply Hk. vm_compute.
    repeat (first [left; reflexivity | right]). }
  unfold entryFor in Hd. rewrite E in Hd. rewrite E, Hd.
  destruct (decide (k ∈ objectPrototypeMembers)) as [|_]; [contradiction|].
  destruct c as [|c].
  - rewrite totalCount_insert_fresh by exact Hd.
    now destruct (totalCount d).
  - rewrite totalCount_insert, (totalCount_lookup d k _ Hd).
    destruct (totalCount (delete k d)); cbn; [f_equal; lia|reflexivity].
Qed.

(** Counting a particle whose label names a member of [Object.prototype]
    other than [__proto__] stores a string. *)
Lemma totalCount_member_label (k : string) (c : nat) (d : gmap string Value) :
  k ∈ objectPrototypeMembers -> k <> "__proto__"%string ->
  d !! k = entryFor k c ->
  totalCount (setProperty d k (orZeroPlusOne (getProperty d k))) = None.
Proof.
  intros Hk Hp Hd. unfold setProperty, getProperty.
  apply String.eqb_neq in Hp. unfold entryFor in Hd. rewrite Hp in Hd.
  rewrite Hp, Hd.
  destruct (decide (k ∈ objectPrototypeMembers)) as [_|]; [|contradiction].
  rewrite totalCount_insert. now destruct c.
Qed.

Lemma setProperty_proto (d : gmap string Value) (v : Value) :
  setProperty d "__proto__" v = d.
Proof. reflexivity. Qed.

Lemma totalCount_fold_plain (ps : list Particle.t) :
  Forall (fun p => Particle.phase p ∉ objectPrototypeMembers) ps ->
  totalCount
    (fold_left
       (fun distribution p =>
          setProperty distribution (Particle.phase p)
            (orZeroPlusOne (getProperty distribution (Particle.phase p))))
       ps ∅)
  = Some (length ps).
Proof.
  induction ps as [|p ps IH] using rev_ind; intros H; [reflexivity|].
  apply Forall_app in H as [Hps Hp]. rewrite Forall_singleton in Hp.
  rewrite fold_left_app. cbn [fold_left].
  rewrite (totalCount_plain_label _ (length (withPhase (Particle.phase p) ps)))
    by first [exact Hp | apply distribution_fold_lookup].
  rewrite (IH Hps), length_app, Nat.add_1_r. reflexivity.
Qed.

Lemma totalCount_fold_member (ps : list Particle.t) :
  Exists (fun p => Particle.phase p ∈ objectPrototypeMembers
                   /\ Particle.phase p <> "__proto__"%string) ps ->
  totalCount
    (fold_left
       (fun distribution p =>
          setProperty distribution (Particle.phase p)
            (orZeroPlusOne (getProperty distribution (Particle.phase p))))
       ps ∅)
  = None.
Proof.
  induction ps as [|p ps IH] using rev_ind; intros H;
    [now apply Exists_nil in H|].
  rewrite fold_left_app. cbn [fold_left].
  pose proof (distribution_fold_lookup (Particle.phase p) ps) as Hd.
  destruct (decide (Particle.phase p ∈ objectPrototypeMembers)) as [Hm|Hm].
  - destruct (decide (Particle.phase p = "__proto__"%string)) as [Hp|Hp].
    + rewrite Hp, setProperty_proto. apply IH.
      apply Exists_app in H as [H|H]; [exact H|].
      apply Exists_cons in H as [[_ H]|H]; [contradiction|].
      now apply Exists_nil in H.
    + now apply (totalCount_member_label _ _ _ Hm Hp Hd).
  - rewrite (totalCount_plain_label _ _ _ Hm Hd).
    rewrite IH; [reflexivity|].
    apply Exists_app in H as [H|H]; [exact H|].
    apply Exists_cons in H as [[H _]|H]; [contradiction|].
    now apply Exists_nil in H.
Qed.

Lemma totalCount_fold_proto (ps : list Particle.t) :
  Forall (fun p => Particle.phase p ∈ objectPrototypeMembers ->
                   Particle.phase p = "__proto__"%string) ps ->
  totalCount
    (fold_left
       (fun distribution p =>
          setProperty distribution (Particle.phase p)
            (orZeroPlusOne (getProperty distribution (Particle.phase p))))
       ps ∅)
  = Some (length ps - length (withPhase "__proto__" ps))%nat.
Proof.
  induction ps as [|p ps IH] using rev_ind; intros H; [reflexivity|].
  apply Forall_app in H as [Hps Hp]. rewrite Forall_singleton in Hp.
  rewrite fold_left_app. cbn [fold_left].
  pose proof (distribution_fold_lookup (Particle.phase p) ps) as Hd.
  unfold withPhase in *.
  rewrite filter_app, !length_app, filter_cons, filter_nil.
  pose proof (length_filter (fun q => Particle.phase q = "__proto__"%string) ps).
  destruct (decide (Particle.phase p = "__proto__"%string)) as [E|E].
  - rewrite E, setProperty_proto, (IH Hps). cbn [length]. f_equal. lia.
  - assert (Hm : Particle.phase p ∉ objectPrototypeMembers) by tauto.
    rewrite (totalCount_plain_label _ _ _ Hm Hd), (IH Hps).
    cbn [length fmap option_fmap option_map]. f_equal. lia.
Qed.

(** The sum of the counts falls short of the number of particles, or is no
    number, as soon as one label names a member of [Object.prototype]. *)
Lemma totalCount_needs_plain_labels (ps : list Particle.t) :
  totalCount
    (fold_left
       (fun distribution p =>
          setProperty distribution (Particle.phase p)
            (orZeroPlusOne (getProperty distribution (Particle.phase p))))
       ps ∅)
  = Some (length ps) ->
  Forall (fun p => Particle.phase p ∉ objectPrototypeMembers) ps.
Proof.
  intros H.
  destruct (decide (Exists (fun p => Particle.phase p ∈ objectPrototypeMembers
                     /\ Particle.phase p <> "__proto__"%string) ps)) as [E|E].
  - now rewrite (totalCount_fold_member ps E) in H.
  - apply not_Exists_Forall in E; [|intros ?; apply _].
    assert (F : Forall (fun p => Particle.phase p ∈ objectPrototypeMembers ->
                   Particle.phase p = "__proto__"%string) ps).
    { eapply Forall_impl; [exact E|]. cbn. intros p Hp Hm.
      destruct (decide (Particle.phase p = "__proto__"%string)); tauto. }
    rewrite (totalCount_fold_proto ps F) in H. injection H as H.
    assert (N : withPhase "__proto__" ps = []).
    { apply length_zero_iff_nil.
      pose proof (length_filter (fun q => Particle.phase q = "__proto__"%string) ps).
      unfold withPhase in *.
      destruct ps; [reflexivity|]. cbn [length] in *. lia. }
    rewrite Forall_forall in F |- *. intros p Hp Hm.
    specialize (F p Hp Hm).
    assert (Hin : p ∈ withPhase "__proto__" ps)
      by (apply list_elem_of_filter; split; assumption).
    rewrite N in Hin. now apply elem_of_nil in Hin.
Qed.



(** The condition on the labels is needed: the counts add up to the number
    of particles in no other state. *)
Remark distribution_sum_needs_plain_labels (s : FlowSimulation) :
  totalCount (getPhaseDistribution s) = Some (getParticleCount s) ->
  Forall (fun p => Particle.phase p ∉ objectPrototypeMembers) (particles s).
Proof. apply totalCount_needs_plain_labels. Qed.

(** ** Run control *)

Section RunControl.

Context {Math : MathObject}.

Lemma updateParticles_eq (s : FlowSimulation) (n : nat) :
  updateParticles s n =
    (set_particles (forEach (updateParticle s) (particles s) n).1 s,
     (forEach (updateParticle s) (particles s) n).2).
Proof.
  unfold updateParticles, bind, ret.
  now destruct (forEach (updateParticle s) (particles s) n).
Qed.

Lemma animate_stopped (w : World) :
  isRunning (this w) = false -> animate w = w.
Proof. intros H. unfold animate. now rewrite H. Qed.

Lemma animate_running (w : World) :
  isRunning (this w) = true ->
  isRunning (this (animate w)) = true /\
  animationId (this (animate w)) = Some (nextHandle (host w)) /\
  callbacks (host (animate w)) = callbacks (host w) ++ [nextHandle (host w)] /\
  nextHandle (host (animate w)) = S (nextHandle (host w)) /\
  time (this (animate w)) = time (this w) + 1.
Proof.
  intros H. unfold animate. rewrite H, updateParticles_eq. cbn.
  rewrite H. repeat split.
Qed.

Lemma start_running (w : World) : isRunning (this w) = true -> start w = w.
Proof. intros H. unfold start. now rewrite H. Qed.

Lemma start_stopped (w : World) :
  isRunning (this w) = false ->
  start w = animate (mkWorld (set_isRunning true (this w)) (host w)).
Proof. intros H. unfold start. now rewrite H. Qed.

Lemma start_isRunning (w : World) : isRunning (this (start w)) = true.
Proof.
  destruct (isRunning (this w)) eqn:E.
  - now rewrite start_running.
  - rewrite start_stopped by exact E. now apply animate_running.
Qed.

Lemma start_start (w : World) : start (start w) = start w.
Proof. apply start_running, start_isRunning. Qed.

Lemma start_time (w : World) :
  isRunning (this w) = false -> time (this (start w)) = time (this w) + 1.
Proof.
  intros E. rewrite start_stopped by exact E.
  now destruct (animate_running (mkWorld (set_isRunning true (this w)) (host w))
                  eq_refl) as (_ & _ & _ & _ & ->).
Qed.

Lemma animate_scheduled (s : FlowSimulation) (h : Host) :
  isRunning s = true -> callbacks h = [] -> nextHandle h <> 0%nat ->
  scheduled (animate (mkWorld s h)).
Proof.
  intros Hr Hc Hn.
  destruct (animate_running (mkWorld s h) Hr) as (H1 & H2 & H3 & H4 & _).
  cbn [this host] in *. unfold scheduled. rewrite H1, H4. split; [lia|].
  exists (nextHandle h). rewrite H2, H3, Hc. now repeat split.
Qed.

Lemma start_scheduled (w : World) : scheduled w -> scheduled (start w).
Proof.
  intros [Hn Hs]. destruct (isRunning (this w)) eqn:E.
  - rewrite start_running by exact E. unfold scheduled. now rewrite E.
  - rewrite start_stopped by exact E. now apply animate_scheduled.
Qed.

Lemma stop_scheduled (w : World) : scheduled w -> scheduled (stop w).
Proof.
  intros [Hn Hs]. unfold stop. cbn [animationId set_isRunning].
  destruct (isRunning (this w)) eqn:E.
  - destruct Hs as (handle & H0 & Ha & Hc). rewrite Ha.
    destruct (handle =? 0)%nat eqn:E0; [now apply Nat.eqb_eq in E0|].
    cbn [negb]. unfold scheduled. cbn. split; [exact Hn|].
    rewrite Hc. cbn. now rewrite decide_False by auto.
  - assert (Hf : filter (fun c => c <> 0%nat) (callbacks (host w)) = [] /\
                 forall handle,
                   filter (fun c => c <> handle) (callbacks (host w)) = [])
      by (rewrite Hs; now split).
    destruct (animationId (this w)) as [handle|];
      [destruct (negb (handle =? 0)%nat)|];
      unfold scheduled; cbn; (split; [exact Hn|]);
      first [exact Hs | apply Hf].
Qed.

Lemma frame_running (w : World) :
  scheduled w -> isRunning (this w) = true ->
  frame w =
    animate (mkWorld (this w) (mkHost (draws (host w)) [] (nextHandle (host w)))).
Proof.
  intros [_ Hs] E. rewrite E in Hs. destruct Hs as (handle & _ & _ & Hc).
  unfold frame. now rewrite Hc.
Qed.

Lemma frame_stopped (w : World) :
  scheduled w -> isRunning (this w) = false -> frame w = w.
Proof.
  intros [_ Hs] E. rewrite E in Hs. unfold frame. rewrite Hs.
  destruct w as [s [d c n]]. cbn in *. now subst c.
Qed.

Lemma frame_scheduled (w : World) : scheduled w -> scheduled (frame w).
Proof.
  intros Hw. destruct (isRunning (this w)) eqn:E.
  - rewrite frame_running by assumption.
    apply animate_scheduled; [exact E|reflexivity|apply Hw].
  - now rewrite frame_stopped.
Qed.

Lemma frame_time (w : World) :
  scheduled w -> isRunning (this w) = true ->
  isRunning (this (frame w)) = true /\
  time (this (frame w)) = time (this w) + 1.
Proof.
  intros Hw E. rewrite frame_running by assumption.
  destruct (animate_running
              (mkWorld (this w) (mkHost (draws (host w)) [] (nextHandle (host w))))
              E) as (H1 & _ & _ & _ & H5).
  now split.
Qed.

Lemma createParticles_fields (s : FlowSimulation) (n : nat) :
  isRunning (createParticles s n).1 = isRunning s /\
  animationId (createParticles s n).1 = animationId s.
Proof. rewrite createParticles_this. now split. Qed.

Lemma resetSim_scheduled (w : World) : scheduled w -> scheduled (resetSim w).
Proof.
  intros Hw. apply stop_scheduled in Hw. unfold resetSim.
  destruct (createParticles_fields (this (stop w)) (draws (host (stop w))))
    as [H1 H2].
  destruct (createParticles (this (stop w)) (draws (host (stop w)))) as [s n].
  cbn [fst] in H1, H2. apply start_scheduled.
  destruct Hw as [Hn Hs]. unfold scheduled. cbn [this host nextHandle callbacks].
  rewrite H1, H2. now split.
Qed.

Lemma construct_scheduled (c : Ref Container) (cfg : Config.t) (h : Host)
    (w : World) :
  callbacks h = [] -> nextHandle h <> 0%nat ->
  construct c cfg h = Normal w -> scheduled w.
Proof.
  intros Hc Hn. unfold construct.
  destruct (setupCanvas c) as [[el cv]|e]; [|discriminate].
  match goal with
  | |- context [createParticles ?s0 ?n0] =>
      pose proof (createParticles_fields s0 n0) as [H1 _];
      destruct (createParticles s0 n0) as [s n]
  end.
  cbn [fst isRunning] in H1. intros [= <-]. unfold scheduled. cbn.
  rewrite H1. now split.
Qed.

Lemma reachable_scheduled (w : World) : reachable w -> scheduled w.
Proof.
  induction 1 as [c cfg h w Hc Hn Hw| | | | | | | |];
    eauto using construct_scheduled, start_scheduled, stop_scheduled,
                resetSim_scheduled, frame_scheduled.
Qed.

Lemma frames_running (k : nat) (w : World) :
  scheduled w -> isRunning (this w) = true ->
  scheduled (Nat.iter k frame w) /\
  isRunning (this (Nat.iter k frame w)) = true /\
  time (this (Nat.iter k frame w)) = Nat.iter k (fun t => t + 1) (time (this w)).
Proof.
  intros Hw E.
  induction k as [|k (IH1 & IH2 & IH3)];
    [split; [exact Hw|split; [exact E|reflexivity]]|].
  rewrite !Nat.iter_succ. destruct (frame_time _ IH1 IH2) as [H1 H2].
  split; [now apply frame_scheduled|]. split; [exact H1|].
  now rewrite H2, IH3.
Qed.

(** C5: [start()] on a running simulation does nothing, so two calls in a
    row leave what one call leaves: one pending callback, and frame after
    frame one tick; from the stopped state [start()] sets the simulation
    running, ticks once and requests the next frame. *)
Theorem start_is_idempotent (w : World) :
  reachable w ->
  start (start w) = start w /\
  isRunning (this (start w)) = true /\
  (isRunning (this w) = false ->
   time (this (start w)) = time (this w) + 1) /\
  forall k,
    Nat.iter k frame (start (start w)) = Nat.iter k frame (start w) /\
    (exists handle,
       callbacks (host (Nat.iter k frame (start (start w)))) = [handle]) /\
    time (this (Nat.iter k frame (start (start w))))
      = Nat.iter k (fun t => t + 1) (time (this (start w))).
Proof.
  intros Hw. apply reachable_scheduled, start_scheduled in Hw.
  rewrite start_start. split; [reflexivity|].
  split; [apply start_isRunning|]. split; [apply start_time|].
  intros k. split; [reflexivity|].
  destruct (frames_running k (start w) Hw (start_isRunning w))
    as ([_ Hs] & Hr & Ht).
  rewrite Hr in Hs. destruct Hs as (handle & _ & _ & Hc).
  split; [now exists handle|exact Ht].
Qed.

End RunControl.

(** ** Concrete runs *)

(** The simulation constructed by default, started twice. *)
Lemma start_is_idempotent_witness :
  @start stillMath (@start stillMath constructedWorld)
    = @start stillMath constructedWorld.
Proof.
  refine (proj1 (@start_is_idempotent stillMath constructedWorld _)).
  refine (@reach_construct stillMath (Obj (mkContainer 100 100)) Config.empty
            freshHost constructedWorld eq_refl _ _).
  - discriminate.
  - vm_compute. reflexivity.
Defined.

(** The hot liquid particle of [demoWorld] is vapor after one tick. *)
Lemma phase_changes_on_tick_witness :
  particles (this demoWorld) !! 0%nat = Some hotLiquid /\
  exists p',
    particles (@updateParticles stillMath (this demoWorld) 0%nat).1 !! 0%nat
      = Some p' /\
    Particle.phase p' = "vapor"%string.
Proof.
  split; [reflexivity|].
  destruct (@phase_changes_on_tick stillMath demoWorld 0%nat hotLiquid eq_refl)
    as [H _].
  destruct (H 0%nat) as (p' & Hp' & Hv & _).
  exists p'. split; [exact Hp'|]. apply Hv; reflexivity.
Defined.

(** [hotLiquid] turns to vapor on the first tick, is reset (and so cooled)
    on the second, and is liquid again after the third. *)
Lemma size_compounds_witness :
  Particle.size
    (@updateParticle stillMath demoSim
       (@updateParticle stillMath demoSim
          (@updateParticle stillMath demoSim hotLiquid 0%nat).1 3%nat).1
       9%nat).1
  = Particle.size hotLiquid * 0.6 * 1.2.
Proof.
  refine (proj2 (proj2 (proj2 (proj2 (proj2 (proj2
            (@size_compounds stillMath demoSim demoSim 0%nat 9%nat hotLiquid
               (@updateParticle stillMath demoSim
                  (@updateParticle stillMath demoSim hotLiquid 0%nat).1 3%nat).1
               eq_refl _ _ _))))))).
  - vm_compute. reflexivity.
  - refine (@quiet_tick stillMath demoSim 3%nat _ _ _ _ eq_refl (quiet_done _)).
    vm_compute. reflexivity.
  - vm_compute. reflexivity.
Defined.



(** * Further properties of the code *)

(** ** The steps of a tick, one by one *)

Section TickSteps.

Context {Math : MathObject}.

Lemma applyFlowForces_eq (s : FlowSimulation) (p : Particle.t) (n : nat) :
  applyFlowForces s p n =
    (Particle.set_vy
       ((Particle.vy p + Num.toNumber (Particle.buoyancy p)
         + ((Math_random (S n) - 0.5) * Options.turbulence (options s)
            + Math_cos (time s * 0.01 + Particle.x p * 0.01) * 0.1)) * 0.98)
       (Particle.set_vx
          ((Particle.vx p
            + ((Math_random n - 0.5) * Options.turbulence (options s)
               + Math_sin (time s * 0.01 + Particle.y p * 0.01) * 0.1)) * 0.98)
          p),
     (2 + n)%nat).
Proof. reflexivity. Qed.

Lemma checkPhaseChange_draws (p : Particle.t) (n : nat) :
  (checkPhaseChange p n).2 = S n.
Proof. reflexivity. Qed.

Lemma checkPhaseChange_keeps (p : Particle.t) (n : nat) :
  Particle.id (checkPhaseChange p n).1 = Particle.id p /\
  Particle.x (checkPhaseChange p n).1 = Particle.x p /\
  Particle.y (checkPhaseChange p n).1 = Particle.y p /\
  Particle.vx (checkPhaseChange p n).1 = Particle.vx p /\
  Particle.vy (checkPhaseChange p n).1 = Particle.vy p /\
  Particle.density (checkPhaseChange p n).1 = Particle.density p /\
  Particle.life (checkPhaseChange p n).1 = Particle.life p /\
  Particle.maxLife (checkPhaseChange p n).1 = Particle.maxLife p.
Proof.
  unfold checkPhaseChange, bind, ret, random. cbn [fst].
  split_ifs; fields; repeat split.
Qed.

(** A tick is its three stages in a row. *)
Lemma updateParticle_unfold (s : FlowSimulation) (p : Particle.t) (n : nat) :
  updateParticle s p n =
    afterPhaseChange s
      (checkPhaseChange (applyFlowForces s p n).1 (2 + n)%nat).1 (3 + n)%nat.
Proof.
  unfold updateParticle, bind. rewrite applyFlowForces_eq. cbn [fst].
  match goal with
  | |- context [checkPhaseChange ?q (2 + n)%nat] =>
      pose proof (checkPhaseChange_draws q (2 + n)%nat) as Hd;
      destruct (checkPhaseChange q (2 + n)%nat) as [p2 n2]
  end.
  cbn [fst snd] in *. subst n2. reflexivity.
Qed.

Lemma afterPhaseChange_keeps (s : FlowSimulation) (p : Particle.t) (n : nat) :
  Particle.id (afterPhaseChange s p n).1 = Particle.id p /\
  Particle.vx (afterPhaseChange s p n).1 = Particle.vx p /\
  Particle.vy (afterPhaseChange s p n).1 = Particle.vy p /\
  Particle.size (afterPhaseChange s p n).1 = Particle.size p /\
  Particle.phase (afterPhaseChange s p n).1 = Particle.phase p /\
  Particle.density (afterPhaseChange s p n).1 = Particle.density p /\
  Particle.maxLife (afterPhaseChange s p n).1 = Particle.maxLife p /\
  Particle.color (afterPhaseChange s p n).1 = Particle.color p /\
  Particle.buoyancy (afterPhaseChange s p n).1 = Particle.buoyancy p.
Proof.
  unfold afterPhaseChange, resetParticle, bind, ret, random. cbv zeta.
  match goal with
  | |- context [if ?c <=? 0 then _ else _] => destruct (c <=? 0)
  end; fields; repeat split.
Qed.

End TickSteps.

(** ** Stopping and restarting *)

Section Stopping.

Context {Math : MathObject}.

Lemma filter_twice {A : Type} (P : A -> Prop) `{forall a, Decision (P a)}
    (l : list A) :
  filter P (filter P l) = filter P l.
Proof.
  induction l as [|a l IH]; [reflexivity|].
  rewrite filter_cons. destruct (decide (P a)) as [Ha|Ha]; [|exact IH].
  rewrite filter_cons, decide_True by exact Ha. now rewrite IH.
Qed.

Lemma cancelAnimationFrame_twice (handle : nat) (h : Host) :
  cancelAnimationFrame handle (cancelAnimationFrame handle h)
    = cancelAnimationFrame handle h.
Proof.
  unfold cancelAnimationFrame. cbn [draws callbacks nextHandle].
  now rewrite filter_twice.
Qed.

(** X1: [stop()] twice is [stop()] once, in every state. *)
Theorem stop_is_idempotent (w : World) : stop (stop w) = stop w.
Proof.
  destruct w as [[c o ps r a t cv] h]. unfold stop.
  cbn [this host animationId set_isRunning].
  destruct a as [handle|]; [|reflexivity].
  destruct (negb (handle =? 0)%nat) eqn:E;
    cbn [this host animationId set_isRunning isRunning container options
         particles time canvas]; rewrite E;
    cbn [this host animationId set_isRunning isRunning container options
         particles time canvas]; [|reflexivity].
  now rewrite cancelAnimationFrame_twice.
Qed.

Lemma stop_fields (w : World) :
  isRunning (this (stop w)) = false /\
  particles (this (stop w)) = particles (this w) /\
  time (this (stop w)) = time (this w) /\
  options (this (stop w)) = options (this w) /\
  animationId (this (stop w)) = animationId (this w) /\
  nextHandle (host (stop w)) = nextHandle (host w) /\
  draws (host (stop w)) = draws (host w).
Proof.
  destruct w as [[c o ps r a t cv] h]. unfold stop.
  cbn [this host animationId set_isRunning].
  destruct a as [handle|]; [destruct (negb (handle =? 0)%nat)|];
    cbn; repeat split.
Qed.

Lemma frames_stopped (k : nat) (w : World) :
  scheduled w -> isRunning (this w) = false -> Nat.iter k frame w = w.
Proof.
  intros Hw E. induction k as [|k IH]; [reflexivity|].
  rewrite Nat.iter_succ, IH. now apply frame_stopped.
Qed.

(** X2: after [stop()] nothing is pending and the browser's frames leave
    the simulation as it is: no tick, no draw of a random number. *)
Theorem stop_halts_ticking (w : World) :
  reachable w ->
  isRunning (this (stop w)) = false /\
  callbacks (host (stop w)) = [] /\
  forall k, Nat.iter k frame (stop w) = stop w.
Proof.
  intros Hw. apply reachable_scheduled, stop_scheduled in Hw.
  destruct (stop_fields w) as [E _]. split; [exact E|].
  split; [|intros k; now apply frames_stopped].
  destruct Hw as [_ Hs]. now rewrite E in Hs.
Qed.

(** X3: [start()] after [stop()] resumes: the simulation runs again with one
    callback pending, has ticked once on the call, and then ticks once per
    frame; the particles are the ones it was stopped with, one tick on. *)
Theorem stop_start_resumes (w : World) :
  reachable w ->
  isRunning (this (start (stop w))) = true /\
  time (this (start (stop w))) = time (this w) + 1 /\
  getParticleCount (this (start (stop w))) = getParticleCount (this w) /\
  forall k,
    (exists handle,
       callbacks (host (Nat.iter k frame (start (stop w)))) = [handle]) /\
    time (this (Nat.iter k frame (start (stop w))))
      = Nat.iter k (fun t => t + 1) (time (this w) + 1).
Proof.
  intros Hw. apply reachable_scheduled, stop_scheduled in Hw.
  destruct (stop_fields w) as (E & Hp & Ht & _).
  pose proof (start_time (stop w) E) as Hst. rewrite Ht in Hst.
  split; [apply start_isRunning|]. split; [exact Hst|]. split.
  - rewrite start_stopped by exact E. unfold animate. cbn [this isRunning
      set_isRunning negb host]. rewrite updateParticles_eq.
    cbn. unfold getParticleCount. rewrite forEach_length. cbn.
    now rewrite Hp.
  - intros k.
    destruct (frames_running k (start (stop w)) (start_scheduled _ Hw)
                (start_isRunning _)) as ([_ Hs] & Hr & Hk).
    rewrite Hr in Hs. destruct Hs as (handle & _ & _ & Hc).
    split; [now exists handle|]. now rewrite Hk, Hst.
Qed.

(** X4: in every reachable state the browser holds one callback of the
    simulation when it runs and none when it is stopped, so two tick loops
    never run side by side; the pending callback is the one [animationId]
    names. *)
Theorem one_schedule_at_most (w : World) :
  reachable w ->
  length (callbacks (host w)) = (if isRunning (this w) then 1 else 0)%nat /\
  (isRunning (this w) = true ->
   exists handle, animationId (this w) = Some handle
                  /\ callbacks (host w) = [handle]).
Proof.
  intros Hw. apply reachable_scheduled in Hw. destruct Hw as [_ Hs].
  destruct (isRunning (this w)).
  - destruct Hs as (handle & _ & Ha & Hc). rewrite Hc. split; [reflexivity|].
    intros _. now exists handle.
  - rewrite Hs. split; [reflexivity|discriminate].
Qed.

End Stopping.

(** ** The pool *)

Section Pool.

Context {Math : MathObject}.

Lemma forEach_map_fixed {A B : Type} (f : A -> B) (body : A -> Rand A)
    (l : list A) (n : nat) :
  (forall a m, f (body a m).1 = f a) ->
  map f (forEach body l n).1 = map f l.
Proof.
  intros H. revert n. induction l as [|a l IH]; intros n; [reflexivity|].
  cbn [forEach]. unfold bind. specialize (H a n).
  destruct (body a n) as [a' n1]. specialize (IH n1).
  destruct (forEach body l n1) as [l' n2]. cbn [fst ret map] in *.
  now rewrite H, IH.
Qed.

Lemma forEach_Forall {A : Type} (P Q : A -> Prop) (body : A -> Rand A)
    (l : list A) (n : nat) :
  (forall a m, P a -> Q (body a m).1) ->
  Forall P l -> Forall Q (forEach body l n).1.
Proof.
  intros H Hl. revert n. induction Hl as [|a l Ha _ IH]; intros n;
    [constructor|].
  cbn [forEach]. unfold bind. specialize (H a n Ha).
  destruct (body a n) as [a' n1]. specialize (IH n1).
  destruct (forEach body l n1) as [l' n2]. cbn [fst ret] in *.
  now constructor.
Qed.

Lemma updateParticle_birthmark (s : FlowSimulation) (p : Particle.t) (n : nat) :
  birthmark (updateParticle s p n).1 = birthmark p.
Proof.
  rewrite updateParticle_unfold. unfold birthmark.
  destruct (afterPhaseChange_keeps s
              (checkPhaseChange (applyFlowForces s p n).1 (2 + n)%nat).1
              (3 + n)%nat) as (-> & _ & _ & _ & _ & -> & -> & _).
  destruct (checkPhaseChange_keeps (applyFlowForces s p n).1 (2 + n)%nat)
    as (-> & _ & _ & _ & _ & -> & _ & ->).
  rewrite applyFlowForces_eq. reflexivity.
Qed.

Lemma animate_birthmarks (w : World) :
  map birthmark (particles (this (animate w)))
    = map birthmark (particles (this w)).
Proof.
  unfold animate. destruct (isRunning (this w)); cbn [negb]; [|reflexivity].
  rewrite updateParticles_eq. cbn.
  apply forEach_map_fixed, updateParticle_birthmark.
Qed.

Lemma fold_animate_birthmarks {A : Type} (l : list A) (w : World) :
  map birthmark (particles (this (fold_left (fun w' _ => animate w') l w)))
    = map birthmark (particles (this w)).
Proof.
  revert w. induction l as [|a l IH]; intros w; [reflexivity|].
  cbn [fold_left]. now rewrite IH, animate_birthmarks.
Qed.

Lemma frame_birthmarks (w : World) :
  map birthmark (particles (this (frame w)))
    = map birthmark (particles (this w)).
Proof. unfold frame. now rewrite fold_animate_birthmarks. Qed.

Lemma start_birthmarks (w : World) :
  map birthmark (particles (this (start w)))
    = map birthmark (particles (this w)).
Proof.
  unfold start. destruct (isRunning (this w)); cbn [negb]; [reflexivity|].
  now rewrite animate_birthmarks.
Qed.

(** X5: ticking never adds, removes or reorders particles, and never changes
    the id, the density or the maximal life of one: the pool after
    [start()], [stop()] or any number of frames has, position by position,
    the birthmarks it had; in particular [getParticleCount()] is the
    same. *)
Theorem pool_is_stable (w : World) :
  map birthmark (particles (this (start w)))
    = map birthmark (particles (this w)) /\
  map birthmark (particles (this (stop w)))
    = map birthmark (particles (this w)) /\
  forall k,
    map birthmark (particles (this (Nat.iter k frame w)))
      = map birthmark (particles (this w)) /\
    getParticleCount (this (Nat.iter k frame w)) = getParticleCount (this w).
Proof.
  split; [apply start_birthmarks|]. split.
  - now destruct (stop_fields w) as (_ & -> & _).
  - intros k.
    assert (Hk : map birthmark (particles (this (Nat.iter k frame w)))
                 = map birthmark (particles (this w))).
    { induction k as [|k IH]; [reflexivity|].
      now rewrite Nat.iter_succ, frame_birthmarks. }
    split; [exact Hk|]. unfold getParticleCount.
    now rewrite <- (length_map birthmark), Hk, length_map.
Qed.

Lemma createParticle_id (s : FlowSimulation) (i : Z) (n : nat) :
  Particle.id (createParticle s i n).1 = i.
Proof. unfold createParticle, bind, ret, random. fields. reflexivity. Qed.

Lemma createLoop_ids (s : FlowSimulation) (l : list Z) (n : nat) :
  map Particle.id (createLoop s l n).1 = l /\
  (createLoop s l n).2 = (n + 9 * length l)%nat.
Proof.
  revert n. induction l as [|i l IH]; intros n; cbn [createLoop].
  - cbn. split; [reflexivity|lia].
  - unfold bind. pose proof (createParticle_id s i n) as Hi.
    pose proof (createParticle_draws s i n) as Hd.
    destruct (createParticle s i n) as [p n1]. cbn [fst snd] in Hi, Hd.
    destruct (IH n1) as [IH1 IH2].
    destruct (createLoop s l n1) as [ps n2]. cbn [fst snd ret map length] in *.
    subst. split; [reflexivity|lia].
Qed.

(** X6: [createParticles()] replaces the pool by [particleCount] particles
    with the ids [0, 1, ...] in order, none when [particleCount] is zero or
    negative; it draws nine random numbers per particle and leaves the rest
    of the simulation as it was. *)
Theorem createParticles_pool (s : FlowSimulation) (n : nat) :
  map Particle.id (particles (createParticles s n).1)
    = seqZ 0 (Options.particleCount (options s)) /\
  getParticleCount (createParticles s n).1
    = Z.to_nat (Options.particleCount (options s)) /\
  ((Options.particleCount (options s) <= 0)%Z ->
   particles (createParticles s n).1 = []) /\
  (createParticles s n).2
    = (n + 9 * Z.to_nat (Options.particleCount (options s)))%nat /\
  (createParticles s n).1 = set_particles (particles (createParticles s n).1) s.
Proof.
  rewrite createParticles_this. cbn [particles set_particles].
  destruct (createLoop_ids s (seqZ 0 (Options.particleCount (options s))) n)
    as [H1 H2].
  rewrite length_seqZ in H2.
  assert (Hlen : getParticleCount
                   (set_particles
                      (createLoop s
                         (seqZ 0 (Options.particleCount (options s))) n).1 s)
                 = Z.to_nat (Options.particleCount (options s))).
  { unfold getParticleCount. cbn [particles set_particles].
    now rewrite <- (length_map Particle.id), H1, length_seqZ. }
  split; [exact H1|]. split; [exact Hlen|]. split; [|split].
  - intros Hz. unfold getParticleCount in Hlen. cbn [particles set_particles] in Hlen.
    apply length_zero_iff_nil. rewrite Hlen. lia.
  - unfold createParticles, bind, ret.
    destruct (createLoop s _ n) as [ps n1]. exact H2.
  - reflexivity.
Qed.

End Pool.

(** ** What every particle of a reachable pool satisfies *)

Section PoolInvariants.

Context {Math : MathObject}.

Lemma createLoop_Forall (P : Particle.t -> Prop) (s : FlowSimulation)
    (l : list Z) (n : nat) :
  (forall i m, P (createParticle s i m).1) ->
  Forall P (createLoop s l n).1.
Proof.
  intros H. revert n. induction l as [|i l IH]; intros n; cbn [createLoop];
    [constructor|].
  unfold bind. specialize (H i n). destruct (createParticle s i n) as [p n1].
  specialize (IH n1). destruct (createLoop s l n1) as [ps n2].
  cbn [fst ret] in *. now constructor.
Qed.

Lemma createParticles_Forall (P : Particle.t -> Prop) (s : FlowSimulation)
    (n : nat) :
  (forall i m, P (createParticle s i m).1) ->
  Forall P (particles (createParticles s n).1).
Proof.
  intros H. rewrite createParticles_this. cbn [particles set_particles].
  now apply createLoop_Forall.
Qed.

Lemma animate_Forall (P Q : Particle.t -> Prop) (w : World) :
  (forall s p n, P p -> Q (updateParticle s p n).1) ->
  isRunning (this w) = true ->
  Forall P (particles (this w)) -> Forall Q (particles (this (animate w))).
Proof.
  intros H E Hw. unfold animate. rewrite E. cbn [negb].
  rewrite updateParticles_eq. cbn.
  apply (forEach_Forall P Q); [apply H|exact Hw].
Qed.

Lemma animate_preserves (P : Particle.t -> Prop) (w : World) :
  (forall s p n, P p -> P (updateParticle s p n).1) ->
  Forall P (particles (this w)) -> Forall P (particles (this (animate w))).
Proof.
  intros H Hw. destruct (isRunning (this w)) eqn:E.
  - now apply (animate_Forall P P).
  - now rewrite animate_stopped.
Qed.

Lemma fold_animate_preserves {A : Type} (P : Particle.t -> Prop) (l : list A)
    (w : World) :
  (forall s p n, P p -> P (updateParticle s p n).1) ->
  Forall P (particles (this w)) ->
  Forall P (particles (this (fold_left (fun w' _ => animate w') l w))).
Proof.
  intros H. revert w. induction l as [|a l IH]; intros w Hw; [exact Hw|].
  cbn [fold_left]. now apply IH, animate_preserves.
Qed.

Lemma start_preserves (P : Particle.t -> Prop) (w : World) :
  (forall s p n, P p -> P (updateParticle s p n).1) ->
  Forall P (particles (this w)) -> Forall P (particles (this (start w))).
Proof.
  intros H Hw. unfold start. destruct (isRunning (this w)); cbn [negb];
    [exact Hw|].
  now apply animate_preserves.
Qed.

Lemma resetSim_Forall (P : Particle.t -> Prop) (w : World) :
  (forall s i n, P (createParticle s i n).1) ->
  (forall s p n, P p -> P (updateParticle s p n).1) ->
  Forall P (particles (this (resetSim w))).
Proof.
  intros Hc Ht. unfold resetSim.
  pose proof (createParticles_Forall P (this (stop w)) (draws (host (stop w)))
                (Hc _)) as H.
  destruct (createParticles (this (stop w)) (draws (host (stop w)))) as [s n].
  cbn [fst] in H. now apply start_preserves.
Qed.

Lemma reachable_pool (P : Particle.t -> Prop) (w : World) :
  (forall s i n, P (createParticle s i n).1) ->
  (forall s p n, P p -> P (updateParticle s p n).1) ->
  reachable w -> Forall P (particles (this w)).
Proof.
  intros Hc Ht. induction 1 as [c cfg h w _ _ Hw|w _ IH|w _ IH|w _ IH|w _ IH
                                |c w _ IH|v w _ IH|v w _ IH|v w _ IH];
    try exact IH.
  - unfold construct in Hw. destruct (setupCanvas c) as [[el cv]|e];
      [|discriminate].
    match type of Hw with
    | context [createParticles ?s0 ?n0] =>
        pose proof (createParticles_Forall P s0 n0 (Hc _)) as H;
        destruct (createParticles s0 n0) as [s n]
    end.
    injection Hw as <-. exact H.
  - now apply start_preserves.
  - now destruct (stop_fields w) as (_ & -> & _).
  - now apply resetSim_Forall.
  - unfold frame. now apply fold_animate_preserves.
Qed.

Lemma updateParticle_life_positive (s : FlowSimulation) (p : Particle.t)
    (n : nat) :
  (Particle.life (updateParticle s p n).1 <=? 0) = false.
Proof.
  destruct (updateParticle_life_step s p n) as (q & Hq & ->).
  destruct (Particle.life p - 1 / Particle.maxLife p <=? 0) eqn:E.
  - reflexivity.
  - cbn [fst]. now rewrite Hq.
Qed.

(** X9: in every reachable state every particle's life is not [<= 0]: a
    particle is created with life 1 and a tick that brings it to [<= 0]
    resets it to 1 before the tick ends, so [render] never sees a used-up
    particle. *)
Theorem life_stays_positive (w : World) :
  reachable w ->
  Forall (fun p => (Particle.life p <=? 0) = false) (particles (this w)).
Proof.
  apply reachable_pool.
  - intros s i n. now rewrite createParticle_life.
  - intros s p n _. apply updateParticle_life_positive.
Qed.

Lemma setPhaseProperties_color (p : Particle.t) :
  Particle.color (setPhaseProperties p) =
    if String.eqb (Particle.phase p) "gas"
    then Some (rgba 0 170 255 (Particle.density p * 0.3))
    else if String.eqb (Particle.phase p) "liquid"
    then Some (rgba 0 100 200 (Particle.density p * 0.7))
    else if String.eqb (Particle.phase p) "vapor"
    then Some (rgba 200 200 255 (Particle.density p * 0.2))
    else Particle.color p.
Proof. unfold setPhaseProperties. split_ifs; reflexivity. Qed.

Lemma setPhaseProperties_buoyancy (p : Particle.t) :
  Particle.buoyancy (setPhaseProperties p) =
    if String.eqb (Particle.phase p) "gas" then Some (- 0.02)
    else if String.eqb (Particle.phase p) "liquid" then Some 0.01
    else if String.eqb (Particle.phase p) "vapor" then Some (- 0.05)
    else Particle.buoyancy p.
Proof. unfold setPhaseProperties. split_ifs; reflexivity. Qed.

Lemma styled_agree (p q : Particle.t) :
  Particle.phase q = Particle.phase p ->
  Particle.density q = Particle.density p ->
  Particle.color q = Particle.color p ->
  Particle.buoyancy q = Particle.buoyancy p ->
  styled p -> styled q.
Proof.
  unfold styled. rewrite !setPhaseProperties_color, !setPhaseProperties_buoyancy.
  intros -> -> -> ->. trivial.
Qed.

Lemma setPhaseProperties_styled (p : Particle.t) :
  styled (setPhaseProperties p).
Proof.
  unfold styled.
  rewrite (setPhaseProperties_color (setPhaseProperties p)),
    (setPhaseProperties_buoyancy (setPhaseProperties p)).
  rewrite setPhaseProperties_phase, setPhaseProperties_density.
  rewrite setPhaseProperties_color, setPhaseProperties_buoyancy.
  split; split_ifs; reflexivity.
Qed.

Lemma applyFlowForces_styled (s : FlowSimulation) (p : Particle.t) (n : nat) :
  styled p -> styled (applyFlowForces s p n).1.
Proof.
  intros Hp. rewrite applyFlowForces_eq.
  apply (styled_agree p); try reflexivity. exact Hp.
Qed.

Lemma checkPhaseChange_styled (p : Particle.t) (n : nat) :
  styled p -> styled (checkPhaseChange p n).1.
Proof.
  intros Hp. unfold checkPhaseChange, bind, ret, random. cbn [fst].
  match goal with
  | |- styled (Particle.set_temperature _ ?q) =>
      apply (styled_agree q); try reflexivity
  end.
  destruct (_ && _); [apply setPhaseProperties_styled|].
  destruct (_ && _); [apply setPhaseProperties_styled|exact Hp].
Qed.

Lemma updateParticle_styled (s : FlowSimulation) (p : Particle.t) (n : nat) :
  styled p -> styled (updateParticle s p n).1.
Proof.
  intros Hp. rewrite updateParticle_unfold.
  destruct (afterPhaseChange_keeps s
              (checkPhaseChange (applyFlowForces s p n).1 (2 + n)%nat).1
              (3 + n)%nat) as (_ & _ & _ & _ & H1 & H2 & _ & H3 & H4).
  apply (styled_agree _ _ H1 H2 H3 H4).
  apply checkPhaseChange_styled, applyFlowForces_styled, Hp.
Qed.

(** X10: in every reachable state the colour and the buoyancy of every
    particle are the ones [setPhaseProperties] gives for its current phase
    and its density: the tick restyles a particle whenever it changes its
    phase and nothing else touches the three. *)
Theorem pool_stays_styled (w : World) :
  reachable w -> Forall styled (particles (this w)).
Proof.
  apply reachable_pool.
  - intros s i n. unfold createParticle, bind, ret, random. cbn [fst].
    apply setPhaseProperties_styled.
  - intros s p n. apply updateParticle_styled.
Qed.

End PoolInvariants.

(** ** Reset and construction *)

Section Recreate.

Context {Math : MathObject}.

Lemma updateParticle_id (s : FlowSimulation) (p : Particle.t) (n : nat) :
  Particle.id (updateParticle s p n).1 = Particle.id p.
Proof.
  pose proof (updateParticle_birthmark s p n) as H. unfold birthmark in H.
  now injection H.
Qed.

Lemma updateParticle_fresh_life (s : FlowSimulation) (p : Particle.t)
    (n : nat) :
  Particle.life p = 1 ->
  Particle.life (updateParticle s p n).1 = 1 \/
  Particle.life (updateParticle s p n).1
    = 1 - 1 / Particle.maxLife (updateParticle s p n).1.
Proof.
  intros Hl. pose proof (updateParticle_birthmark s p n) as Hb.
  unfold birthmark in Hb. injection Hb as _ _ Hm. rewrite Hm.
  destruct (updateParticle_life_step s p n) as (q & Hq & ->).
  rewrite Hl in *.
  destruct (1 - 1 / Particle.maxLife p <=? 0); [now left|now right].
Qed.

Lemma animate_running_pool (w : World) :
  isRunning (this w) = true ->
  options (this (animate w)) = options (this w) /\
  particles (this (animate w))
    = (forEach (updateParticle (set_time (time (this w) + 1) (this w)))
         (particles (this w)) (draws (host w))).1.
Proof.
  intros H. unfold animate. rewrite H, updateParticles_eq. cbn. now split.
Qed.

(** X7: the Reset button leaves the simulation running, with a new pool of
    [particleCount] particles numbered from 0 and with the options it had.
    Because [start()] ticks at once, the tick counter is not reset but one
    higher, and every new particle has already aged one tick: its life is
    [1 - 1 / maxLife], or 1 if that tick reset it. *)
Theorem resetSim_restarts (w : World) :
  isRunning (this (resetSim w)) = true /\
  options (this (resetSim w)) = options (this w) /\
  time (this (resetSim w)) = time (this w) + 1 /\
  map Particle.id (particles (this (resetSim w)))
    = seqZ 0 (Options.particleCount (options (this w))) /\
  getParticleCount (this (resetSim w))
    = Z.to_nat (Options.particleCount (options (this w))) /\
  Forall (fun p => Particle.life p = 1
                   \/ Particle.life p = 1 - 1 / Particle.maxLife p)
    (particles (this (resetSim w))).
Proof.
  destruct (stop_fields w) as (E & _ & Ht & Ho & _).
  unfold resetSim.
  pose proof (createParticles_this (this (stop w)) (draws (host (stop w))))
    as Hs.
  pose proof (createLoop_ids (this (stop w))
                (seqZ 0 (Options.particleCount (options (this (stop w)))))
                (draws (host (stop w)))) as [Hids _].
  pose proof (createLoop_Forall (fun p => Particle.life p = 1) (this (stop w))
                (seqZ 0 (Options.particleCount (options (this (stop w)))))
                (draws (host (stop w)))
                (createParticle_life (this (stop w)))) as Hlife.
  destruct (createParticles (this (stop w)) (draws (host (stop w)))) as [s n].
  cbn [fst] in Hs.
  assert (Hr : isRunning s = false) by (rewrite Hs; exact E).
  assert (Hos : options s = options (this w)) by (rewrite Hs; exact Ho).
  assert (Hts : time s = time (this w)) by (rewrite Hs; exact Ht).
  assert (Hps : particles s
                = (createLoop (this (stop w))
                     (seqZ 0 (Options.particleCount (options (this (stop w)))))
                     (draws (host (stop w)))).1) by (rewrite Hs; reflexivity).
  rewrite <- Hps in Hids, Hlife. rewrite Ho in Hids. clear Hs Hps.
  set (h2 := mkHost n (callbacks (host (stop w))) (nextHandle (host (stop w)))).
  rewrite (start_stopped (mkWorld s h2) Hr). cbn [this host].
  destruct (animate_running (mkWorld (set_isRunning true s) h2) eq_refl)
    as (H1 & _ & _ & _ & H5).
  destruct (animate_running_pool (mkWorld (set_isRunning true s) h2) eq_refl)
    as [H6 H7].
  cbn [this host set_isRunning options time particles] in H5, H6, H7.
  assert (Hmap : map Particle.id
                   (particles
                      (this (animate (mkWorld (set_isRunning true s) h2))))
                 = seqZ 0 (Options.particleCount (options (this w)))).
  { rewrite H7, forEach_map_fixed by (intros; apply updateParticle_id).
    exact Hids. }
  split; [exact H1|]. split; [now rewrite H6|]. split; [now rewrite H5, Hts|].
  split; [exact Hmap|]. split.
  - unfold getParticleCount.
    now rewrite <- (length_map Particle.id), Hmap, length_seqZ.
  - rewrite H7.
    apply (forEach_Forall (fun p => Particle.life p = 1)); [|exact Hlife].
    intros p m. apply updateParticle_fresh_life.
Qed.

(** X8: construction on a container gives a stopped simulation: not
    running, no frame requested, tick counter 0, a canvas of the container's
    size, and a pool of [particleCount] particles (100 when the
    configuration holds none) for which [9 * particleCount] random numbers
    were drawn. *)
Theorem construct_initial_state (c : Container) (cfg : Config.t) (h : Host) :
  exists w,
    construct (Obj c) cfg h = Normal w /\
    isRunning (this w) = false /\
    animationId (this w) = None /\
    time (this w) = 0 /\
    container (this w) = c /\
    canvas (this w) = mkCanvas (offsetWidth c) (offsetHeight c) /\
    callbacks (host w) = callbacks h /\
    nextHandle (host w) = nextHandle h /\
    getParticleCount (this w)
      = Z.to_nat (default 100%Z (Config.particleCount cfg)) /\
    draws (host w)
      = (draws h + 9 * Z.to_nat (default 100%Z (Config.particleCount cfg)))%nat.
Proof.
  unfold construct. cbn [setupCanvas].
  set (s0 := mkSim c (mergeOptions cfg) [] false None 0
               (mkCanvas (offsetWidth c) (offsetHeight c))).
  assert (Hc : Options.particleCount (options s0)
               = default 100%Z (Config.particleCount cfg))
    by (destruct cfg as [[pc|] ? ? ? ? ?]; reflexivity).
  pose proof (createParticles_this s0 (draws h)) as Hs.
  destruct (createLoop_ids s0 (seqZ 0 (Options.particleCount (options s0)))
              (draws h)) as [Hids Hd].
  assert (Hd' : (createParticles s0 (draws h)).2
                = (createLoop s0 (seqZ 0 (Options.particleCount (options s0)))
                     (draws h)).2).
  { unfold createParticles, bind, ret. now destruct (createLoop s0 _ (draws h)). }
  destruct (createParticles s0 (draws h)) as [s n]. cbn [fst snd] in Hs, Hd'.
  subst s n. eexists. split; [reflexivity|].
  cbn [this host set_particles isRunning animationId time container canvas
       callbacks nextHandle draws].
  repeat (split; [reflexivity|]).
  rewrite length_seqZ in Hd. rewrite Hc in Hd at 2. split; [|exact Hd].
  unfold getParticleCount. cbn [particles set_particles].
  now rewrite <- (length_map Particle.id), Hids, length_seqZ, Hc.
Qed.

End Recreate.

(** ** The distribution of phases *)

Section Distribution.

Context {Math : MathObject}.

(** X11: for every label [k], [getPhaseDistribution()] holds what
    [entryFor] says of the number of particles in the phase [k]: no entry
    when there is none, and none for [__proto__] ever; for the name of
    another member of [Object.prototype] the text of that member followed
    by one ["1"] per particle; for any other label the number of
    particles. *)
Theorem distribution_counts_phase (s : FlowSimulation) (k : string) :
  getPhaseDistribution s !! k
  = entryFor k (length (withPhase k (particles s))).
Proof. apply distribution_fold_lookup. Qed.

Lemma forEach_withPhase (k : string) (body : Particle.t -> Rand Particle.t)
    (l : list Particle.t) (n : nat) :
  (forall a m, Particle.phase (body a m).1 = k <-> Particle.phase a = k) ->
  length (withPhase k (forEach body l n).1) = length (withPhase k l).
Proof.
  intros H. revert n. induction l as [|a l IH]; intros n; [reflexivity|].
  cbn [forEach]. unfold bind. specialize (H a n).
  destruct (body a n) as [a' n1]. specialize (IH n1).
  destruct (forEach body l n1) as [l' n2]. cbn [fst ret] in *.
  unfold withPhase in *. rewrite !filter_cons.
  destruct (decide (Particle.phase a' = k)) as [Ha'|Ha'];
    destruct (decide (Particle.phase a = k)) as [Ha|Ha];
    cbn [length]; try (now rewrite IH); tauto.
Qed.

Lemma updateParticle_inert (k : string) (s : FlowSimulation) (p : Particle.t)
    (n : nat) :
  k <> "liquid"%string -> k <> "vapor"%string ->
  Particle.phase (updateParticle s p n).1 = k <-> Particle.phase p = k.
Proof.
  intros Hl Hv. rewrite updateParticle_phase.
  destruct (String.eqb (Particle.phase p) "liquid") eqn:E1;
    [apply String.eqb_eq in E1|];
    (destruct (String.eqb (Particle.phase p) "vapor") eqn:E2;
     [apply String.eqb_eq in E2|]);
    cbn [andb]; split_ifs; split; congruence.
Qed.

Lemma animate_withPhase (k : string) (w : World) :
  k <> "liquid"%string -> k <> "vapor"%string ->
  length (withPhase k (particles (this (animate w))))
    = length (withPhase k (particles (this w))).
Proof.
  intros Hl Hv. unfold animate.
  destruct (isRunning (this w)); cbn [negb]; [|reflexivity].
  rewrite updateParticles_eq. cbn.
  apply forEach_withPhase. intros a m. now apply updateParticle_inert.
Qed.

Lemma fold_animate_withPhase {A : Type} (k : string) (l : list A) (w : World) :
  k <> "liquid"%string -> k <> "vapor"%string ->
  length (withPhase k
            (particles (this (fold_left (fun w' _ => animate w') l w))))
    = length (withPhase k (particles (this w))).
Proof.
  intros Hl Hv. revert w. induction l as [|a l IH]; intros w; [reflexivity|].
  cbn [fold_left]. now rewrite IH, animate_withPhase.
Qed.

(** X12: ticking moves particles between liquid and vapor only, so for any
    other label, gas included, the count [getPhaseDistribution()] reports
    is the same after [start()] and after any number of frames. *)
Theorem other_phase_counts_are_constant (k : string) (w : World) :
  k <> "liquid"%string -> k <> "vapor"%string ->
  getPhaseDistribution (this (start w)) !! k
    = getPhaseDistribution (this w) !! k /\
  forall j,
    getPhaseDistribution (this (Nat.iter j frame w)) !! k
      = getPhaseDistribution (this w) !! k.
Proof.
  intros Hl Hv. unfold getPhaseDistribution.
  rewrite !distribution_fold_lookup. split.
  - unfold start. destruct (isRunning (this w)); cbn [negb]; [reflexivity|].
    now rewrite animate_withPhase.
  - intros j. rewrite distribution_fold_lookup.
    assert (Hj : length (withPhase k (particles (this (Nat.iter j frame w))))
                 = length (withPhase k (particles (this w)))).
    { induction j as [|j IH]; [reflexivity|].
      rewrite Nat.iter_succ. unfold frame at 1.
      now rewrite fold_animate_withPhase. }
    now rewrite Hj.
Qed.

End Distribution.

(** ** Not-a-number *)

Section NotANumber.

Lemma is_nan_true (f : float) : is_nan f = true <-> Prim2SF f = S754_nan.
Proof.
  split.
  - intros H. destruct (Prim2SF f) eqn:E; try reflexivity; exfalso;
      assert (Hf : is_nan f = false)
        by (apply is_nan_Prim2SF; rewrite E; discriminate);
      congruence.
  - intros H. unfold is_nan. rewrite FloatAxioms.eqb_spec, H. reflexivity.
Qed.

Lemma add_nan_l (a b : float) : is_nan a = true -> is_nan (a + b) = true.
Proof.
  rewrite !is_nan_true, add_spec. intros ->. reflexivity.
Qed.

Lemma add_nan_r (a b : float) : is_nan b = true -> is_nan (a + b) = true.
Proof.
  rewrite !is_nan_true, add_spec. intros ->.
  destruct (Prim2SF a); reflexivity.
Qed.

Lemma mul_nan_l (a b : float) : is_nan a = true -> is_nan (a * b) = true.
Proof.
  rewrite !is_nan_true, mul_spec. intros ->. reflexivity.
Qed.

Lemma ltb_nan_l (a b : float) : is_nan a = true -> (a <? b) = false.
Proof.
  rewrite is_nan_true, FloatAxioms.ltb_spec. intros ->. reflexivity.
Qed.

Lemma ltb_nan_r (a b : float) : is_nan b = true -> (a <? b) = false.
Proof.
  rewrite is_nan_true, FloatAxioms.ltb_spec. intros ->. unfold SFltb.
  destruct (Prim2SF a); reflexivity.
Qed.

Lemma leb_not_ltb (a b : float) : (a <=? b) = true -> (b <? a) = false.
Proof.
  rewrite FloatAxioms.leb_spec, FloatAxioms.ltb_spec. unfold SFleb, SFltb.
  rewrite (SFcompare_antisym (Prim2SF a) (Prim2SF b)).
  destruct (SFcompare (Prim2SF a) (Prim2SF b)) as [[]|]; cbn; congruence.
Qed.

End NotANumber.

(** ** Particles of a phase the code does not style *)

Section Unstyled.

Context {Math : MathObject}.

Lemma phaseAt_elem (phaseTypes : list string) (index : option Z) :
  phaseAt phaseTypes index ∈ phaseTypes
  \/ phaseAt phaseTypes index = "undefined"%string.
Proof.
  unfold phaseAt. destruct index as [[|z|z]|]; try (now right);
    (destruct (phaseTypes !! _) as [label|] eqn:E; cbn;
     [left; eapply list_elem_of_lookup_2; exact E|now right]).
Qed.

Lemma phaseAt_nil (index : option Z) : phaseAt [] index = "undefined"%string.
Proof. destruct index as [[|z|z]|]; reflexivity. Qed.

(** X14: the phase of a created particle is one of the configured
    [phaseTypes], or [undefined] when the index falls outside them, as it
    always does for an empty [phaseTypes].  A particle whose phase is none
    of gas, liquid and vapor gets no colour and no buoyancy, and keeps the
    size [Math.random() * 5 + 2] unscaled. *)
Theorem created_phase (s : FlowSimulation) (i : Z) (n : nat) :
  (Particle.phase (createParticle s i n).1 ∈ Options.phaseTypes (options s)
   \/ Particle.phase (createParticle s i n).1 = "undefined"%string) /\
  (Options.phaseTypes (options s) = [] ->
   Particle.phase (createParticle s i n).1 = "undefined"%string) /\
  (Particle.phase (createParticle s i n).1 <> "gas"%string ->
   Particle.phase (createParticle s i n).1 <> "liquid"%string ->
   Particle.phase (createParticle s i n).1 <> "vapor"%string ->
   Particle.color (createParticle s i n).1 = None /\
   Particle.buoyancy (createParticle s i n).1 = None /\
   Particle.size (createParticle s i n).1 = Math_random (4 + n) * 5 + 2).
Proof.
  unfold createParticle, bind, ret, random. cbn [fst].
  rewrite setPhaseProperties_phase. cbn [Particle.phase].
  split; [apply phaseAt_elem|]. split.
  - intros ->. apply phaseAt_nil.
  - intros Hg Hl Hv. apply String.eqb_neq in Hg, Hl, Hv.
    unfold setPhaseProperties. cbn [Particle.phase].
    rewrite Hg, Hl, Hv. repeat split.
Qed.

Lemma checkPhaseChange_inert (p : Particle.t) (n : nat) :
  Particle.phase p <> "liquid"%string -> Particle.phase p <> "vapor"%string ->
  (checkPhaseChange p n).1
    = Particle.set_temperature
        (Particle.temperature p + (Math_random n - 0.5) * 0.5) p.
Proof.
  intros Hl Hv. apply String.eqb_neq in Hl, Hv.
  unfold checkPhaseChange, bind, ret, random. now rewrite Hl, Hv.
Qed.

Lemma afterPhaseChange_no_reset (s : FlowSimulation) (p : Particle.t)
    (n : nat) :
  (Particle.life p - 1 / Particle.maxLife p <=? 0) = false ->
  afterPhaseChange s p n
    = (Particle.set_life (Particle.life p - 1 / Particle.maxLife p)
         (applyBoundaries (canvas s)
            (Particle.set_y (Particle.y p + Particle.vy p)
               (Particle.set_x (Particle.x p + Particle.vx p) p))),
       n).
Proof.
  intros H. unfold afterPhaseChange. cbv zeta.
  cbn [Particle.life Particle.set_life].
  rewrite applyBoundaries_life, applyBoundaries_maxLife.
  cbn [Particle.life Particle.maxLife Particle.set_x Particle.set_y
       Particle.y Particle.vy].
  now rewrite H.
Qed.

(** X13: a particle without buoyancy, which is what [createParticles] makes
    of a phase other than gas, liquid and vapor, stays that way, and every
    tick leaves its vertical velocity NaN: [vy += undefined].  Unless the
    tick resets the particle, its [y] is NaN as well, and [applyBoundaries]
    lets it pass. *)
Theorem unstyled_particle_goes_nan (s : FlowSimulation) (p : Particle.t)
    (n : nat) :
  Particle.buoyancy p = None ->
  Particle.phase p <> "liquid"%string -> Particle.phase p <> "vapor"%string ->
  Particle.phase (updateParticle s p n).1 = Particle.phase p /\
  Particle.buoyancy (updateParticle s p n).1 = None /\
  is_nan (Particle.vy (updateParticle s p n).1) = true /\
  ((Particle.life p - 1 / Particle.maxLife p <=? 0) = false ->
   is_nan (Particle.y (updateParticle s p n).1) = true).
Proof.
  intros Hb Hl Hv. rewrite updateParticle_unfold.
  rewrite applyFlowForces_eq. cbn [fst].
  rewrite checkPhaseChange_inert by assumption.
  match goal with
  | |- context [afterPhaseChange s ?q _] => set (p2 := q)
  end.
  assert (Hvy : is_nan (Particle.vy p2) = true).
  { subst p2. cbn. rewrite Hb. apply mul_nan_l, add_nan_l, add_nan_r.
    reflexivity. }
  destruct (afterPhaseChange_keeps s p2 (3 + n)%nat)
    as (_ & _ & H3 & _ & H5 & _ & _ & _ & H9).
  split; [now rewrite H5|]. split; [now rewrite H9|].
  split; [now rewrite H3|].
  intros Hlife. rewrite afterPhaseChange_no_reset by exact Hlife.
  cbn [fst Particle.y Particle.set_life]. rewrite applyBoundaries_y.
  cbn [Particle.y Particle.set_y].
  assert (Hy : is_nan (Particle.y p2 + Particle.vy p2) = true)
    by now apply add_nan_r.
  now rewrite (ltb_nan_l _ _ Hy), (ltb_nan_r _ _ Hy).
Qed.

End Unstyled.

(** ** The labels of a reachable pool *)

Section Labels.

Context {Math : MathObject}.

Lemma createParticle_label (s : FlowSimulation) (i : Z) (n : nat) :
  Particle.phase (createParticle s i n).1 ∈ Options.phaseTypes (options s)
  \/ Particle.phase (createParticle s i n).1
       ∈ ["undefined"; "liquid"; "vapor"]%string.
Proof.
  unfold createParticle, bind, ret, random. cbn [fst].
  rewrite setPhaseProperties_phase. cbn [Particle.phase].
  match goal with
  | |- context [phaseAt ?l ?i] => destruct (phaseAt_elem l i) as [H| ->]
  end; [now left|right; repeat constructor].
Qed.

Lemma updateParticle_label (l : list string) (s : FlowSimulation)
    (p : Particle.t) (n : nat) :
  Particle.phase p ∈ l
  \/ Particle.phase p ∈ ["undefined"; "liquid"; "vapor"]%string ->
  Particle.phase (updateParticle s p n).1 ∈ l
  \/ Particle.phase (updateParticle s p n).1
       ∈ ["undefined"; "liquid"; "vapor"]%string.
Proof.
  intros H. rewrite updateParticle_phase.
  destruct (_ && _); [right; repeat constructor|].
  destruct (_ && _); [right; repeat constructor|exact H].
Qed.

Lemma animate_options (w : World) :
  options (this (animate w)) = options (this w).
Proof.
  destruct (isRunning (this w)) eqn:E.
  - now destruct (animate_running_pool w E).
  - now rewrite animate_stopped.
Qed.

Lemma fold_animate_options {A : Type} (l : list A) (w : World) :
  options (this (fold_left (fun w' _ => animate w') l w)) = options (this w).
Proof.
  revert w. induction l as [|a l IH]; intros w; [reflexivity|].
  cbn [fold_left]. now rewrite IH, animate_options.
Qed.

Lemma start_options (w : World) :
  options (this (start w)) = options (this w).
Proof.
  unfold start. destruct (isRunning (this w)); cbn [negb]; [reflexivity|].
  now rewrite animate_options.
Qed.

Lemma resetSim_options (w : World) :
  options (this (resetSim w)) = options (this w).
Proof.
  unfold resetSim.
  pose proof (createParticles_this (this (stop w)) (draws (host (stop w))))
    as H.
  destruct (createParticles (this (stop w)) (draws (host (stop w)))) as [s n].
  cbn [fst] in H. rewrite start_options. cbn [this]. rewrite H.
  cbn [options set_particles]. now destruct (stop_fields w) as (_ & _ & _ & -> & _).
Qed.

Lemma reachable_labels (w : World) :
  reachable w ->
  Forall (fun p => Particle.phase p ∈ Options.phaseTypes (options (this w))
                   \/ Particle.phase p ∈ ["undefined"; "liquid"; "vapor"]%string)
    (particles (this w)).
Proof.
  induction 1 as [c cfg h w _ _ Hw|w _ IH|w _ IH|w _ IH|w _ IH
                  |c w _ IH|v w _ IH|v w _ IH|v w _ IH];
    try exact IH.
  - unfold construct in Hw. destruct (setupCanvas c) as [[el cv]|e];
      [|discriminate].
    match type of Hw with
    | context [createParticles ?s0 ?n0] =>
        pose proof (createParticles_Forall
                      (fun p => Particle.phase p ∈ Options.phaseTypes (options s0)
                                \/ Particle.phase p
                                     ∈ ["undefined"; "liquid"; "vapor"]%string)
                      s0 n0 (createParticle_label s0))
          as H;
        pose proof (createParticles_this s0 n0) as Hs;
        destruct (createParticles s0 n0) as [s n]
    end.
    injection Hw as <-. cbn [fst this] in *.
    assert (Ho : options s = mergeOptions cfg) by (now rewrite Hs).
    rewrite Ho. exact H.
  - rewrite start_options. apply start_preserves; [|exact IH].
    intros s p n. apply updateParticle_label.
  - destruct (stop_fields w) as (_ & -> & _ & -> & _). exact IH.
  - rewrite resetSim_options. unfold resetSim.
    pose proof (createParticles_Forall
                  (fun p => Particle.phase p
                              ∈ Options.phaseTypes (options (this (stop w)))
                            \/ Particle.phase p
                                 ∈ ["undefined"; "liquid"; "vapor"]%string)
                  (this (stop w)) (draws (host (stop w)))
                  (createParticle_label _)) as H.
    destruct (stop_fields w) as (_ & _ & _ & Ho & _). rewrite Ho in H.
    destruct (createParticles (this (stop w)) (draws (host (stop w)))) as [s n].
    cbn [fst] in H. apply start_preserves; [|exact H].
    intros s' p n'. apply updateParticle_label.
  - unfold frame. rewrite fold_animate_options. cbn [this].
    apply fold_animate_preserves; [|exact IH].
    intros s p n. apply updateParticle_label.
Qed.

(** X19: in every reachable state of a simulation whose configured
    [phaseTypes] name no member of [Object.prototype], the entries of
    [getPhaseDistribution()] are numbers that add up to
    [getParticleCount()]: the labels of the pool are configured ones,
    [undefined], or the [liquid] and [vapor] a phase change assigns. *)
Theorem plain_phaseTypes_keep_the_sum (w : World) :
  reachable w ->
  Forall (fun k => k ∉ objectPrototypeMembers)
    (Options.phaseTypes (options (this w))) ->
  totalCount (getPhaseDistribution (this w))
    = Some (getParticleCount (this w)).
Proof.
  intros Hw Hplain. unfold getPhaseDistribution, getParticleCount.
  apply totalCount_fold_plain.
  eapply Forall_impl; [exact (reachable_labels w Hw)|].
  cbn. intros p [Hp|Hp].
  - rewrite Forall_forall in Hplain. now apply Hplain.
  - intros Hm.
    assert (Hno : Forall (fun k => k ∉ objectPrototypeMembers)
                    ["undefined"; "liquid"; "vapor"]%string)
      by (apply (bool_decide_unpack _); vm_compute; exact I).
    rewrite Forall_forall in Hno. exact (Hno _ Hp Hm).
Qed.

End Labels.

(** ** Boundaries, once more *)

(** X15: on a surface whose width and height are not negative,
    [applyBoundaries] changes nothing the second time, and it leaves a
    particle inside [0 .. width] x [0 .. height] as it is. *)
Theorem applyBoundaries_settles (cv : Canvas) (p : Particle.t) :
  (width cv <? 0) = false -> (height cv <? 0) = false ->
  applyBoundaries cv (applyBoundaries cv p) = applyBoundaries cv p /\
  (Num.between 0 (width cv) (Particle.x p) = true ->
   Num.between 0 (height cv) (Particle.y p) = true ->
   applyBoundaries cv p = p).
Proof.
  intros Hw Hh. destruct p as [i x y vx vy sz ph de te li ml co bu].
  assert (H0 : (0 <? 0) = false) by reflexivity.
  pose proof (ltb_irrefl (width cv)) as Hww.
  pose proof (ltb_irrefl (height cv)) as Hhh.
  split.
  - unfold applyBoundaries. cbn [Particle.x Particle.y Particle.set_x
                                 Particle.set_y].
    destruct (x <? 0) eqn:E1; [|destruct (width cv <? x) eqn:E2];
      cbn [Particle.x Particle.y Particle.set_x Particle.set_y];
      (destruct (y <? 0) eqn:E3; [|destruct (height cv <? y) eqn:E4]);
      cbn [Particle.x Particle.y Particle.set_x Particle.set_y];
      rewrite ?Hw, ?Hh, ?H0, ?Hww, ?Hhh, ?E1, ?E2, ?E3, ?E4;
      cbn [Particle.x Particle.y Particle.set_x Particle.set_y];
      rewrite ?Hw, ?Hh, ?H0, ?Hww, ?Hhh, ?E1, ?E2, ?E3, ?E4;
      reflexivity.
  - unfold Num.between. cbn [Particle.x Particle.y].
    intros [Hx1 Hx2]%andb_prop [Hy1 Hy2]%andb_prop.
    apply leb_not_ltb in Hx1, Hx2, Hy1, Hy2.
    unfold applyBoundaries. cbn [Particle.x Particle.y].
    rewrite Hx1, Hx2. cbn [Particle.y]. now rewrite Hy1, Hy2.
Qed.

(** ** What a tick reads of the simulation *)

Section TickReads.

Context {Math : MathObject}.

Lemma afterPhaseChange_reads (s s' : FlowSimulation) (p : Particle.t)
    (n : nat) :
  canvas s = canvas s' ->
  Options.temperature (options s) = Options.temperature (options s') ->
  afterPhaseChange s p n = afterPhaseChange s' p n.
Proof.
  intros Hc Ht. unfold afterPhaseChange, resetParticle. now rewrite Hc, Ht.
Qed.

(** X16: a tick reads of the simulation the tick counter, the canvas size
    and the options [turbulence] and [temperature], and nothing else: two
    simulations that agree on these four update any particle alike, whatever
    their [particleCount], [flowSpeed], [phaseTypes], [pressure], container,
    pool or run state. *)
Theorem tick_reads_four_things (s s' : FlowSimulation) (p : Particle.t)
    (n : nat) :
  time s = time s' -> canvas s = canvas s' ->
  Options.turbulence (options s) = Options.turbulence (options s') ->
  Options.temperature (options s) = Options.temperature (options s') ->
  updateParticle s p n = updateParticle s' p n /\
  forall ps, forEach (updateParticle s) ps n = forEach (updateParticle s') ps n.
Proof.
  intros Hti Hc Htu Hte.
  assert (H : forall q m, updateParticle s q m = updateParticle s' q m).
  { intros q m. rewrite !updateParticle_unfold, !applyFlowForces_eq.
    rewrite Hti, Htu. now apply afterPhaseChange_reads. }
  split; [apply H|]. intros ps. apply forEach_ext, H.
Qed.

(** X17: the [temperature] option seeds resets only: on a tick that does
    not reset the particle, changing it with [setTemperature] changes
    nothing of the result. *)
Theorem temperature_option_only_seeds (v : float) (s : FlowSimulation)
    (p : Particle.t) (n : nat) :
  (Particle.life p - 1 / Particle.maxLife p <=? 0) = false ->
  updateParticle (setTemperature v s) p n = updateParticle s p n.
Proof.
  intros Hl. rewrite !updateParticle_unfold, !applyFlowForces_eq.
  cbn [fst]. cbn [setTemperature set_options time options
                  Options.set_temperature Options.turbulence].
  match goal with
  | |- afterPhaseChange _ ?q _ = _ =>
      assert (Hq : (Particle.life q - 1 / Particle.maxLife q <=? 0) = false)
  end.
  { match goal with
    | |- context [checkPhaseChange ?q ?m] =>
        destruct (checkPhaseChange_keeps q m)
          as (_ & _ & _ & _ & _ & _ & -> & ->)
    end.
    exact Hl. }
  now rewrite !afterPhaseChange_no_reset by exact Hq.
Qed.

End TickReads.

Section TickPosition.

Context {Math : MathObject}.

Lemma wrap_nan (limit v : float) :
  is_nan v = true ->
  (if v <? 0 then limit else if limit <? v then 0 else v) = v.
Proof.
  intros H. now rewrite (ltb_nan_l _ _ H), (ltb_nan_r _ _ H).
Qed.

Lemma wrap_number (limit v : float) :
  (0 <? limit) = true ->
  is_nan (if v <? 0 then limit else if limit <? v then 0 else v) = false ->
  Num.between 0 limit
    (if v <? 0 then limit else if limit <? v then 0 else v) = true.
Proof.
  intros Hpos Hn. destruct (is_nan v) eqn:E.
  - rewrite wrap_nan in Hn by exact E. congruence.
  - now apply wrap_between.
Qed.

Lemma afterPhaseChange_position (s : FlowSimulation) (p : Particle.t)
    (n : nat) :
  (Particle.life p - 1 / Particle.maxLife p <=? 0) = false ->
  Particle.x (afterPhaseChange s p n).1
    = (if Particle.x p + Particle.vx p <? 0 then width (canvas s)
       else if width (canvas s) <? Particle.x p + Particle.vx p then 0
       else Particle.x p + Particle.vx p) /\
  Particle.y (afterPhaseChange s p n).1
    = (if Particle.y p + Particle.vy p <? 0 then height (canvas s)
       else if height (canvas s) <? Particle.y p + Particle.vy p then 0
       else Particle.y p + Particle.vy p).
Proof.
  intros H. rewrite afterPhaseChange_no_reset by exact H.
  cbn [fst Particle.x Particle.y Particle.set_life].
  rewrite applyBoundaries_x, applyBoundaries_y. split; reflexivity.
Qed.

(** X18: on a surface of positive width and height, a tick that does not
    reset the particle ends with each coordinate either NaN or inside
    [0 .. width], [0 .. height]: the position update is followed by
    [applyBoundaries] and by nothing that moves the particle. *)
Theorem tick_keeps_position_in_range (s : FlowSimulation) (p : Particle.t)
    (n : nat) :
  (0 <? width (canvas s)) = true -> (0 <? height (canvas s)) = true ->
  (Particle.life p - 1 / Particle.maxLife p <=? 0) = false ->
  (is_nan (Particle.x (updateParticle s p n).1) = false ->
   Num.between 0 (width (canvas s)) (Particle.x (updateParticle s p n).1)
     = true) /\
  (is_nan (Particle.y (updateParticle s p n).1) = false ->
   Num.between 0 (height (canvas s)) (Particle.y (updateParticle s p n).1)
     = true).
Proof.
  intros Hw Hh Hl. rewrite updateParticle_unfold.
  destruct (checkPhaseChange_keeps (applyFlowForces s p n).1 (2 + n)%nat)
    as (_ & _ & _ & _ & _ & _ & Hl2 & Hm2).
  rewrite applyFlowForces_eq in Hl2 at 2. rewrite applyFlowForces_eq in Hm2 at 2.
  cbn [fst Particle.life Particle.maxLife Particle.set_vx Particle.set_vy]
    in Hl2, Hm2.
  rewrite <- Hl2, <- Hm2 in Hl.
  destruct (afterPhaseChange_position s _ (3 + n)%nat Hl) as [-> ->].
  split; apply wrap_number; assumption.
Qed.

End TickPosition.

(** ** Concrete runs of the further properties *)

Lemma constructedWorld_reachable : @reachable stillMath constructedWorld.
Proof.
  refine (@reach_construct stillMath (Obj (mkContainer 100 100)) Config.empty
            freshHost constructedWorld eq_refl _ _).
  - discriminate.
  - vm_compute. reflexivity.
Qed.

(** The default simulation, started and stopped. *)
Lemma stop_halts_ticking_witness :
  callbacks (host (stop (@start stillMath constructedWorld))) = [].
Proof.
  exact (proj1 (proj2 (@stop_halts_ticking stillMath
                         (@start stillMath constructedWorld)
                         (reach_start _ constructedWorld_reachable)))).
Defined.

(** The default simulation, stopped before it ever ran, then started. *)
Lemma stop_start_resumes_witness :
  isRunning (this (@start stillMath (stop constructedWorld))) = true.
Proof.
  exact (proj1 (@stop_start_resumes stillMath constructedWorld
                  constructedWorld_reachable)).
Defined.

(** The default simulation after Reset and one frame. *)
Lemma one_schedule_at_most_witness :
  length (callbacks (host (@frame stillMath (@resetSim stillMath constructedWorld))))
  = (if isRunning (this (@frame stillMath (@resetSim stillMath constructedWorld)))
     then 1 else 0)%nat.
Proof.
  exact (proj1 (@one_schedule_at_most stillMath _
                  (reach_frame _ (reach_resetSim _ constructedWorld_reachable)))).
Defined.

Lemma life_stays_positive_witness :
  Forall (fun p => (Particle.life p <=? 0) = false)
    (particles (this (@frame stillMath (@start stillMath constructedWorld)))).
Proof.
  exact (@life_stays_positive stillMath _
           (reach_frame _ (reach_start _ constructedWorld_reachable))).
Defined.

Lemma pool_stays_styled_witness :
  Forall styled
    (particles (this (@frame stillMath (@start stillMath constructedWorld)))).
Proof.
  exact (@pool_stays_styled stillMath _
           (reach_frame _ (reach_start _ constructedWorld_reachable))).
Defined.

(** The gas count of [demoWorld] over three frames. *)
Lemma other_phase_counts_are_constant_witness :
  getPhaseDistribution (this (Nat.iter 3 (@frame stillMath) demoWorld))
    !! "gas"%string
  = getPhaseDistribution (this demoWorld) !! "gas"%string.
Proof.
  refine (proj2 (@other_phase_counts_are_constant stillMath "gas"%string
                   demoWorld _ _) 3%nat); discriminate.
Defined.

Lemma unstyled_particle_goes_nan_witness :
  is_nan (Particle.vy (@updateParticle stillMath demoSim plasmaParticle 0%nat).1)
  = true.
Proof.
  refine (proj1 (proj2 (proj2
            (@unstyled_particle_goes_nan stillMath demoSim plasmaParticle 0%nat
               eq_refl _ _)))); discriminate.
Defined.

Lemma applyBoundaries_settles_witness :
  applyBoundaries (mkCanvas 100 100)
    (applyBoundaries (mkCanvas 100 100) strayParticle)
  = applyBoundaries (mkCanvas 100 100) strayParticle.
Proof.
  exact (proj1 (applyBoundaries_settles (mkCanvas 100 100) strayParticle
                  eq_refl eq_refl)).
Defined.

Lemma tick_reads_four_things_witness :
  @updateParticle stillMath demoSim hotLiquid 0%nat
  = @updateParticle stillMath otherSim hotLiquid 0%nat.
Proof.
  exact (proj1 (@tick_reads_four_things stillMath demoSim otherSim hotLiquid
                  0%nat eq_refl eq_refl eq_refl eq_refl)).
Defined.

Lemma temperature_option_only_seeds_witness :
  @updateParticle stillMath (setTemperature 350 demoSim) strayParticle 0%nat
  = @updateParticle stillMath demoSim strayParticle 0%nat.
Proof.
  refine (@temperature_option_only_seeds stillMath 350 demoSim strayParticle
            0%nat _).
  vm_compute. reflexivity.
Defined.

Lemma tick_keeps_position_in_range_witness :
  Num.between 0 (width (canvas demoSim))
    (Particle.x (@updateParticle stillMath demoSim strayParticle 0%nat).1)
  = true.
Proof.
  refine (proj1 (@tick_keeps_position_in_range stillMath demoSim strayParticle
                   0%nat _ _ _) _); vm_compute; reflexivity.
Defined.

(** The default simulation, started, after one frame. *)
Lemma plain_phaseTypes_keep_the_sum_witness :
  totalCount
    (getPhaseDistribution
       (this (@frame stillMath (@start stillMath constructedWorld))))
  = Some (getParticleCount
            (this (@frame stillMath (@start stillMath constructedWorld)))).
Proof.
  refine (@plain_phaseTypes_keep_the_sum stillMath _
            (reach_frame _ (reach_start _ constructedWorld_reachable)) _).
  apply (bool_decide_unpack _). vm_compute. exact I.
Defined.
